(** * Peer code review server: models, handlers and their properties

    A shallow embedding of the Express/Mongoose application: the three
    collections of [server.js] ([User], [CodeSnippet], [Feedback]), the
    [Code] collection of [models/Code.js], the [authenticate] middleware,
    the route handlers of [server.js] and the handlers of the code router.

    Collections are lists in insertion order (a document created last sits
    last); [find] without a sort returns the matching documents in that
    order.  Every handler is a function from the database (and the request)
    to the new database and the response it sends.

    Where a library stands between the request and the handler's logic (the
    cast of a string to an ObjectId, [bcrypt.compare] on a value that is
    no string, the rounding of a product of doubles), the handler is given
    twice: on the values after that step, and on the values as they arrive
    ([authenticate_raw], [post_feedback_raw], [post_auth_login_raw]). *)

From Stdlib Require Import List Ascii String ZArith Lia Bool Sorted Permutation.
From Stdlib Require PrimFloat FloatOps SpecFloat Uint63.
Import ListNotations.
Open Scope string_scope.
Open Scope Z_scope.
Open Scope list_scope.

(** ** Data models *)

(** A MongoDB ObjectId, by its string rendering (the handlers compare ids
    through [toString()]).  A request carries an id as a string, which
    Mongoose casts to an ObjectId first ([ObjectId_cast]); a string that is
    no ObjectId makes [findById] throw. *)
Definition ObjectId := string.

(** [userSchema] *)
Record User := mkUser {
  u_id : ObjectId;
  u_email : string;
  u_password : string;
  u_createdAt : Z
}.

(** [codeSnippetSchema] *)
Record CodeSnippet := mkCodeSnippet {
  cs_id : ObjectId;
  cs_code : string;
  cs_language : string;
  cs_userId : ObjectId;
  cs_createdAt : Z
}.

(** [feedbackSchema] of [server.js] *)
Record Feedback := mkFeedback {
  fb_id : ObjectId;
  fb_codeSnippetId : ObjectId;
  fb_reviewerId : ObjectId;
  fb_feedbackText : string;
  fb_createdAt : Z
}.

(** [feedbackSchema] of [models/Code.js], embedded in a [Code] document *)
Record EmbeddedFeedback := mkEmbeddedFeedback {
  ef_feedbackText : string;
  ef_reviewerId : ObjectId
}.

(** [codeSchema] of [models/Code.js]; [code] is a plain [String] path, not
    required, so a document may lack it. *)
Record Code := mkCode {
  c_id : ObjectId;
  c_user : ObjectId;
  c_code : option string;
  c_createdAt : Z;
  c_feedbacks : list EmbeddedFeedback
}.

(** The database: one list per collection. *)
Record Db := mkDb {
  users : list User;
  snippets : list CodeSnippet;
  feedbacks : list Feedback;
  codes : list Code
}.

Definition empty_db : Db := mkDb [] [] [] [].

(** ** Requests and responses *)

(** A field of a JSON request body: absent, or a string. *)
Definition field := option string.

(** JavaScript's [!x] on such a field: true when it is absent or empty. *)
Definition falsy (x : field) : bool :=
  match x with
  | None => true
  | Some s => String.eqb s ""
  end.

(** [x || d] on such a field. *)
Definition or_default (x : field) (d : string) : string :=
  match x with
  | None => d
  | Some s => if String.eqb s "" then d else s
  end.

Record Credentials := mkCredentials { email : field; password : field }.
Record CodeBody := mkCodeBody { code : field; language : field }.
Record FeedbackBody := mkFeedbackBody { codeSnippetId : field; feedbackText : field }.

(** The payload of a token and the token: [jwt.sign] puts [id], [iat] and
    [exp] (both in seconds) in the payload and signs it. *)
Record JwtPayload := mkJwtPayload { jp_id : ObjectId; jp_iat : Z; jp_exp : Z }.
Record Token := mkToken { tk_payload : JwtPayload; tk_signature : string }.

(** What follows [Bearer ] in the header: a string that is no token at
    all, or a token. *)
Inductive Credential :=
| Garbled
| Jwt (t : Token).

(** The [Authorization] header: absent, present without the [Bearer ]
    prefix, or a bearer credential. *)
Inductive AuthHeader :=
| NoHeader
| NotBearer
| Bearer (c : Credential).

(** [req.user]: the user document without its password
    ([select('-password')]). *)
Record AuthUser := mkAuthUser { au_id : ObjectId; au_email : string; au_createdAt : Z }.

(** The [user] object of the register and login responses. *)
Record UserView := mkUserView { uv_id : ObjectId; uv_email : string; uv_createdAt : Z }.

(** A feedback entry after [populate('reviewerId', 'email')]: the reviewer
    id is replaced by the reviewer's [_id] and [email], or by null when
    no such user exists. *)
Record PopulatedFeedback := mkPopulatedFeedback {
  pf_id : ObjectId;
  pf_codeSnippetId : ObjectId;
  pf_reviewer : option (ObjectId * string);
  pf_feedbackText : string;
  pf_createdAt : Z
}.

(** An element of the my-submissions response: the snippet's own fields
    and a [feedbacks] array. *)
Record SnippetWithFeedback := mkSnippetWithFeedback {
  swf_snippet : CodeSnippet;
  swf_feedbacks : list PopulatedFeedback
}.

Inductive Body :=
| Message (m : string)
| AuthPayload (token : Token) (user : UserView)
| SnippetDoc (s : option CodeSnippet)
| Submissions (l : list SnippetWithFeedback)
| FeedbackDoc (f : Feedback)
| Protected (m : string) (user : AuthUser)
| ErrorMsg (e : string)
| CodeNull
| CodePick (c : option string) (id : ObjectId)
| Codes (l : list Code).

Record Response := mkResponse { status : Z; body : Body }.

(** The error kinds of the design, read off the status code of a response. *)
Inductive ErrorKind :=
| ValidationError
| Unauthorized
| Forbidden
| NotFound
| Conflict
| RepositoryFailure.

Definition error_kind (r : Response) : option ErrorKind :=
  if status r =? 400 then Some ValidationError
  else if status r =? 401 then Some Unauthorized
  else if status r =? 403 then Some Forbidden
  else if status r =? 404 then Some NotFound
  else if status r =? 409 then Some Conflict
  else if status r =? 500 then Some RepositoryFailure
  else None.

(** A fault is what a [catch] block answers: status 500. *)
Definition is_fault (r : Response) : bool := status r =? 500.

(** ** Collaborators *)

(** The password hash ([bcryptjs]), the signature of a token payload under
    a secret, [process.env.JWT_SECRET], and the generation of the MongoDB
    driver: drivers before bson 6 take any string of 12 bytes for an
    ObjectId, later ones do not. *)
Class Platform := {
  bcrypt_hash : string -> string -> string;
  bcrypt_compare : string -> string -> bool;
  hmac : string -> JwtPayload -> string;
  JWT_SECRET : string;
  legacy_12_byte_ids : bool
}.

(** [Math.random()]: a double in [0, 1), that is [mantissa / 2^53]. *)
Record Draw := mkDraw {
  mantissa : Z;
  mantissa_range : (0 <=? mantissa) && (mantissa <? 2 ^ 53) = true
}.

(** The double nearest to an integer [p >= 0], as an integer: [p] keeps
    its 53 leading bits, the bits below them are rounded to nearest, ties
    to even (the rounding of an IEEE 754 double operation). *)
Definition round53 (p : Z) : Z :=
  let k := Z.log2 p - 52 in
  if k <=? 0 then p
  else
    let q := p / 2 ^ k in
    let r := p mod 2 ^ k in
    let half := 2 ^ (k - 1) in
    if r <? half then q * 2 ^ k
    else if half <? r then (q + 1) * 2 ^ k
    else if Z.even q then q * 2 ^ k
    else (q + 1) * 2 ^ k.

(** [Math.floor(Math.random() * n)] for a count [n] that is itself a double
    (any integer up to 2^53).  The product of the doubles [mantissa / 2^53]
    and [n] is the double nearest to the exact product
    [mantissa * n / 2^53], that is [round53 (mantissa * n) / 2^53] (a
    scaling by 2^53 does not change which bits are kept); [Math.floor]
    takes its integer part. *)
Definition floor_random (d : Draw) (n : Z) : Z := round53 (mantissa d * n) / 2 ^ 53.

(** The same index computed with the doubles of the machine: the
    mantissa scaled by 2^-53, multiplied by the count, and the integer
    part of the product read off its binary expansion. *)
Definition double_of_Z (z : Z) : PrimFloat.float :=
  PrimFloat.of_uint63 (Uint63.of_Z z).

Definition double_floor (f : PrimFloat.float) : Z :=
  match FloatOps.Prim2SF f with
  | SpecFloat.S754_finite _ m e =>
      if 0 <=? e then Z.pos m * 2 ^ e else Z.pos m / 2 ^ (- e)
  | _ => 0
  end.

Definition floor_random_double (m n : Z) : Z :=
  double_floor
    (PrimFloat.mul (PrimFloat.div (double_of_Z m) (double_of_Z (2 ^ 53))) (double_of_Z n)).

(** [Date.now()] is in milliseconds, the clock of a token in seconds. *)
Definition seconds (now : Z) : Z := now / 1000.

(** ** Token service *)

Inductive JwtError :=
| JsonWebTokenError
| TokenExpiredError.

(** Modelled from the spec: [jwt.sign] of the [jsonwebtoken] package, which
    is not among the sources.  It produces a credential bound to the id
    with an absolute expiry [expiresIn] seconds after issuance, signed with
    the secret. *)
Definition jwt_sign `{Platform} (id : ObjectId) (secret : string)
    (expiresIn : Z) (now : Z) : Token :=
  let p := mkJwtPayload id (seconds now) (seconds now + expiresIn) in
  mkToken p (hmac secret p).

(** Modelled from the spec: [jwt.verify] of the [jsonwebtoken] package,
    which is not among the sources.  It fails when the credential cannot be
    parsed or its signature does not validate, fails when the current time
    is at or past the encoded expiry, and otherwise returns the payload. *)
Definition jwt_verify `{Platform} (c : Credential) (secret : string)
    (now : Z) : JwtError + JwtPayload :=
  match c with
  | Garbled => inl JsonWebTokenError
  | Jwt t =>
      if String.eqb (tk_signature t) (hmac secret (tk_payload t)) then
        if jp_exp (tk_payload t) <=? seconds now then inl TokenExpiredError
        else inr (tk_payload t)
      else inl JsonWebTokenError
  end.

(** [{ expiresIn: '1h' }] *)
Definition one_hour : Z := 3600.

(** ** Queries

    The queries take an ObjectId: the value Mongoose has cast the string of
    a request to ([ObjectId_cast] below).  The handlers in this part are
    the handlers from that point on, their id fields holding ObjectIds and
    their text fields strings; [authenticate_raw], [post_feedback_raw] and
    [post_auth_login_raw] below are the same handlers on the values as
    they arrive, with the casts and the [catch] blocks those can reach. *)

Definition User_findOne_email (db : Db) (e : string) : option User :=
  find (fun u => String.eqb (u_email u) e) (users db).

Definition User_findById (db : Db) (id : ObjectId) : option User :=
  find (fun u => String.eqb (u_id u) id) (users db).

Definition CodeSnippet_findById (db : Db) (id : ObjectId) : option CodeSnippet :=
  find (fun s => String.eqb (cs_id s) id) (snippets db).

(** [{ userId: { $ne: id } }] *)
Definition not_owned_by (id : ObjectId) (s : CodeSnippet) : bool :=
  negb (String.eqb (cs_userId s) id).

(** [{ userId: id }] *)
Definition owned_by (id : ObjectId) (s : CodeSnippet) : bool :=
  String.eqb (cs_userId s) id.

(** [{ codeSnippetId: { $in: ids } }] *)
Definition snippet_in (ids : list ObjectId) (f : Feedback) : bool :=
  existsb (String.eqb (fb_codeSnippetId f)) ids.

(** [populate('reviewerId', 'email')] on one feedback document *)
Definition populate (db : Db) (f : Feedback) : PopulatedFeedback :=
  mkPopulatedFeedback (fb_id f) (fb_codeSnippetId f)
    (match User_findById db (fb_reviewerId f) with
     | Some u => Some (u_id u, u_email u)
     | None => None
     end)
    (fb_feedbackText f) (fb_createdAt f).

(** ** Inserts

    [_id] is unique in every collection, and so is [email] in [User]
    ([unique: true]): a [create] that would break this throws, and the
    handler's [catch] block answers 500. *)

Definition User_create (db : Db) (u : User) : option Db :=
  if existsb (fun v => String.eqb (u_id v) (u_id u) || String.eqb (u_email v) (u_email u))
       (users db)
  then None
  else Some (mkDb (users db ++ [u]) (snippets db) (feedbacks db) (codes db)).

Definition CodeSnippet_create (db : Db) (s : CodeSnippet) : option Db :=
  if existsb (fun t => String.eqb (cs_id t) (cs_id s)) (snippets db) then None
  else Some (mkDb (users db) (snippets db ++ [s]) (feedbacks db) (codes db)).

Definition Feedback_create (db : Db) (f : Feedback) : option Db :=
  if existsb (fun g => String.eqb (fb_id g) (fb_id f)) (feedbacks db) then None
  else Some (mkDb (users db) (snippets db) (feedbacks db ++ [f]) (codes db)).

Definition Code_save (db : Db) (c : Code) : option Db :=
  if existsb (fun d => String.eqb (c_id d) (c_id c)) (codes db) then None
  else Some (mkDb (users db) (snippets db) (feedbacks db) (codes db ++ [c])).

(** ** Authentication middleware

    [authenticate] on a token whose [id] is an ObjectId, as in every token
    the server signs; [authenticate_raw] below adds the cast of
    [decoded.id] and the last line of the [catch] block, which only a
    failing cast reaches. *)

Definition authenticate `{Platform} (db : Db) (authHeader : AuthHeader) (now : Z)
    : Response + AuthUser :=
  match authHeader with
  | NoHeader | NotBearer =>
      inl (mkResponse 401 (Message "No token provided or malformed token"))
  | Bearer token =>
      match jwt_verify token JWT_SECRET now with
      | inr decoded =>
          match User_findById db (jp_id decoded) with
          | None => inl (mkResponse 401 (Message "User not found"))
          | Some u => inr (mkAuthUser (u_id u) (u_email u) (u_createdAt u))
          end
      | inl TokenExpiredError => inl (mkResponse 401 (Message "Token expired"))
      | inl JsonWebTokenError => inl (mkResponse 401 (Message "Invalid token"))
      end
  end.

(** ** Route handlers of [server.js]

    [newId] is the ObjectId the driver generates for a created document,
    [now] is [Date.now()], [salt] the salt [bcrypt.hash] draws. *)

(** [POST /api/auth/register] *)
Definition post_auth_register `{Platform} (db : Db) (b : Credentials)
    (newId : ObjectId) (salt : string) (now : Z) : Db * Response :=
  match email b, password b with
  | Some e, Some p =>
      if falsy (email b) || falsy (password b) then
        (db, mkResponse 400 (Message "Email and password are required"))
      else
        match User_findOne_email db e with
        | Some _ => (db, mkResponse 409 (Message "Email already registered"))
        | None =>
            let hashedPassword := bcrypt_hash p salt in
            let user := mkUser newId e hashedPassword now in
            match User_create db user with
            | None => (db, mkResponse 500 (Message "Registration failed"))
            | Some db' =>
                let token := jwt_sign (u_id user) JWT_SECRET one_hour now in
                (db', mkResponse 201
                        (AuthPayload token
                           (mkUserView (u_id user) (u_email user) (u_createdAt user))))
            end
        end
  | _, _ => (db, mkResponse 400 (Message "Email and password are required"))
  end.

(** [POST /api/auth/login] on a body whose password is a string;
    [post_auth_login_raw] below takes a password of any JSON type, and with
    it the [catch] block. *)
Definition post_auth_login `{Platform} (db : Db) (b : Credentials) (now : Z)
    : Db * Response :=
  match email b, password b with
  | Some e, Some p =>
      if falsy (email b) || falsy (password b) then
        (db, mkResponse 400 (Message "Email and password are required"))
      else
        match User_findOne_email db e with
        | None => (db, mkResponse 401 (Message "Invalid credentials"))
        | Some user =>
            let isMatch := bcrypt_compare p (u_password user) in
            if negb isMatch then
              (db, mkResponse 401 (Message "Invalid credentials"))
            else
              let token := jwt_sign (u_id user) JWT_SECRET one_hour now in
              (db, mkResponse 200
                     (AuthPayload token
                        (mkUserView (u_id user) (u_email user) (u_createdAt user))))
        end
  | _, _ => (db, mkResponse 400 (Message "Email and password are required"))
  end.

(** [POST /api/code] *)
Definition post_code (db : Db) (user : AuthUser) (b : CodeBody)
    (newId : ObjectId) (now : Z) : Db * Response :=
  match code b with
  | Some c =>
      if falsy (code b) then (db, mkResponse 400 (Message "Code is required"))
      else
        let snippet :=
          mkCodeSnippet newId c (or_default (language b) "javascript")
            (au_id user) now in
        match CodeSnippet_create db snippet with
        | None => (db, mkResponse 500 (Message "Failed to submit code"))
        | Some db' => (db', mkResponse 201 (SnippetDoc (Some snippet)))
        end
  | None => (db, mkResponse 400 (Message "Code is required"))
  end.

(** [GET /api/code/random] *)
Definition get_code_random (db : Db) (user : AuthUser) (d : Draw) : Db * Response :=
  let count := Z.of_nat (List.length (filter (not_owned_by (au_id user)) (snippets db))) in
  if count =? 0 then
    (db, mkResponse 404 (Message "No code available for review"))
  else
    let random := floor_random d count in
    let snippet :=
      nth_error (filter (not_owned_by (au_id user)) (snippets db)) (Z.to_nat random) in
    (db, mkResponse 200 (SnippetDoc snippet)).

(** [GET /api/code/my-submissions] *)
Definition get_code_my_submissions (db : Db) (user : AuthUser) : Db * Response :=
  let snippets := filter (owned_by (au_id user)) (snippets db) in
  let snippetIds := map cs_id snippets in
  let feedbacks := map (populate db) (filter (snippet_in snippetIds) (feedbacks db)) in
  let snippetsWithFeedback :=
    map (fun snippet =>
           mkSnippetWithFeedback snippet
             (filter (fun f => String.eqb (pf_codeSnippetId f) (cs_id snippet)) feedbacks))
        snippets in
  (db, mkResponse 200 (Submissions snippetsWithFeedback)).

(** [POST /api/feedback] from the cast on: [codeSnippetId] holds the
    ObjectId that the string of the request casts to; [post_feedback_raw]
    below starts from the string. *)
Definition post_feedback (db : Db) (user : AuthUser) (b : FeedbackBody)
    (newId : ObjectId) (now : Z) : Db * Response :=
  match codeSnippetId b, feedbackText b with
  | Some sid, Some text =>
      if falsy (codeSnippetId b) || falsy (feedbackText b) then
        (db, mkResponse 400 (Message "Code snippet ID and feedback text are required"))
      else
        match CodeSnippet_findById db sid with
        | None => (db, mkResponse 404 (Message "Code snippet not found"))
        | Some snippet =>
            if String.eqb (cs_userId snippet) (au_id user) then
              (db, mkResponse 403 (Message "You cannot review your own code"))
            else
              let feedback := mkFeedback newId sid (au_id user) text now in
              match Feedback_create db feedback with
              | None => (db, mkResponse 500 (Message "Failed to submit feedback"))
              | Some db' => (db', mkResponse 201 (FeedbackDoc feedback))
              end
        end
  | _, _ =>
      (db, mkResponse 400 (Message "Code snippet ID and feedback text are required"))
  end.

(** [GET /api/protected] *)
Definition get_protected (db : Db) (user : AuthUser) : Db * Response :=
  (db, mkResponse 200 (Protected "You have accessed a protected route" user)).

(** ** Handlers of the code router

    The router's [authMiddleware] is not among the sources: the handlers
    take [req.user.id], the identity it resolved, as an argument. *)

(** [router.post('/')] *)
Definition router_post (db : Db) (user_id : ObjectId) (code : field)
    (newId : ObjectId) (now : Z) : Db * Response :=
  let newCode := mkCode newId user_id code now [] in
  match Code_save db newCode with
  | Some db' => (db', mkResponse 201 (Message "Code submitted"))
  | None => (db, mkResponse 500 (ErrorMsg "Server error"))
  end.

(** [router.get('/random')]; reading [random.code] off an undefined array
    element throws, which the [catch] block answers. *)
Definition router_get_random (db : Db) (user_id : ObjectId) (d : Draw)
    : Db * Response :=
  let snippets := filter (fun c => negb (String.eqb (c_user c) user_id)) (codes db) in
  if Z.of_nat (List.length snippets) =? 0 then (db, mkResponse 200 CodeNull)
  else
    match nth_error snippets
            (Z.to_nat (floor_random d (Z.of_nat (List.length snippets)))) with
    | Some random => (db, mkResponse 200 (CodePick (c_code random) (c_id random)))
    | None => (db, mkResponse 500 (ErrorMsg "Server error"))
    end.

(** [sort({ createdAt: -1 })]: descending by [createdAt]; documents with
    equal dates keep their stored order. *)
Fixpoint insert_createdAt_desc (c : Code) (l : list Code) : list Code :=
  match l with
  | [] => [c]
  | d :: l' =>
      if c_createdAt c <? c_createdAt d then d :: insert_createdAt_desc c l'
      else c :: l
  end.

Fixpoint sort_createdAt_desc (l : list Code) : list Code :=
  match l with
  | [] => []
  | c :: l' => insert_createdAt_desc c (sort_createdAt_desc l')
  end.

(** [router.get('/mine')] *)
Definition router_get_mine (db : Db) (user_id : ObjectId) : Db * Response :=
  let codes :=
    sort_createdAt_desc (filter (fun c => String.eqb (c_user c) user_id) (codes db)) in
  (db, mkResponse 200 (Codes codes)).

(** ** The server as a transition system

    The requests carry ObjectIds and strings, as the handlers above take
    them; [feedback_route_stays_reachable] shows that the feedback route on
    a request as it arrives reaches no other database. *)

Inductive Request :=
| PostAuthRegister (b : Credentials) (newId : ObjectId) (salt : string)
| PostAuthLogin (b : Credentials)
| PostCode (h : AuthHeader) (b : CodeBody) (newId : ObjectId)
| GetCodeRandom (h : AuthHeader) (d : Draw)
| GetCodeMySubmissions (h : AuthHeader)
| PostFeedback (h : AuthHeader) (b : FeedbackBody) (newId : ObjectId)
| GetProtected (h : AuthHeader)
| RouterPost (user_id : ObjectId) (code : field) (newId : ObjectId)
| RouterGetRandom (user_id : ObjectId) (d : Draw)
| RouterGetMine (user_id : ObjectId).

(** A protected route: [authenticate] answers itself, or sets [req.user]
    and calls the handler. *)
Definition protected `{Platform} (db : Db) (h : AuthHeader) (now : Z)
    (handler : AuthUser -> Db * Response) : Db * Response :=
  match authenticate db h now with
  | inl r => (db, r)
  | inr user => handler user
  end.

Definition handle `{Platform} (db : Db) (req : Request) (now : Z) : Db * Response :=
  match req with
  | PostAuthRegister b newId salt => post_auth_register db b newId salt now
  | PostAuthLogin b => post_auth_login db b now
  | PostCode h b newId => protected db h now (fun user => post_code db user b newId now)
  | GetCodeRandom h d => protected db h now (fun user => get_code_random db user d)
  | GetCodeMySubmissions h => protected db h now (fun user => get_code_my_submissions db user)
  | PostFeedback h b newId =>
      protected db h now (fun user => post_feedback db user b newId now)
  | GetProtected h => protected db h now (fun user => get_protected db user)
  | RouterPost user_id code newId => router_post db user_id code newId now
  | RouterGetRandom user_id d => router_get_random db user_id d
  | RouterGetMine user_id => router_get_mine db user_id
  end.

(** The databases the server can be in: it starts empty and serves one
    request after another. *)
Inductive reachable `{Platform} : Db -> Prop :=
| reach_init : reachable empty_db
| reach_step db req now : reachable db -> reachable (fst (handle db req now)).

(** ** Predicates on the database *)

(** No feedback entry is by the owner of the snippet it references. *)
Definition no_self_review (db : Db) : Prop :=
  forall f s,
    In f (feedbacks db) -> In s (snippets db) ->
    cs_id s = fb_codeSnippetId f -> cs_userId s <> fb_reviewerId f.

(** Every feedback entry references a stored snippet. *)
Definition feedback_refs (db : Db) : Prop :=
  forall f, In f (feedbacks db) ->
    exists s, In s (snippets db) /\ cs_id s = fb_codeSnippetId f.

Definition unique_snippet_ids (db : Db) : Prop := NoDup (map cs_id (snippets db)).

Definition unique_feedback_ids (db : Db) : Prop := NoDup (map fb_id (feedbacks db)).

(** The response of [GET /api/code/my-submissions], spelled out. *)
Definition submissions_of (db : Db) (owner : ObjectId) : list SnippetWithFeedback :=
  map (fun s =>
         mkSnippetWithFeedback s
           (map (populate db)
              (filter (fun f => String.eqb (fb_codeSnippetId f) (cs_id s)) (feedbacks db))))
      (filter (owned_by owner) (snippets db)).

(** Orders on documents by creation date. *)
Definition created_no_later (a b : CodeSnippet) : Prop := cs_createdAt a <= cs_createdAt b.

Definition code_created_no_later (a b : Code) : Prop := c_createdAt a <= c_createdAt b.

Definition code_created_no_earlier (a b : Code) : Prop := c_createdAt b <= c_createdAt a.

(** What a handler can do to the snippet and feedback collections. *)
Inductive effect (db db' : Db) : Prop :=
| eff_none :
    snippets db' = snippets db -> feedbacks db' = feedbacks db -> effect db db'
| eff_snippet (s : CodeSnippet) :
    cs_code s <> "" ->
    (forall t, In t (snippets db) -> cs_id t <> cs_id s) ->
    snippets db' = snippets db ++ [s] -> feedbacks db' = feedbacks db ->
    effect db db'
| eff_feedback (f : Feedback) (s : CodeSnippet) :
    CodeSnippet_findById db (fb_codeSnippetId f) = Some s ->
    cs_userId s <> fb_reviewerId f ->
    snippets db' = snippets db -> feedbacks db' = feedbacks db ++ [f] ->
    effect db db'.

(** What the handlers keep true of the database. *)
Definition consistent (db : Db) : Prop :=
  unique_snippet_ids db /\ feedback_refs db /\ no_self_review db.

(** Serving a list of requests, each at its own time. *)
Definition serve `{Platform} (db : Db) (reqs : list (Request * Z)) : Db :=
  fold_left (fun db rq => fst (handle db (fst rq) (snd rq))) reqs db.

(** ** The handlers on the values as they arrive

    A JSON body may hold any JSON value where a string is expected, and an
    id arrives as a string that Mongoose has yet to cast to an ObjectId. *)

(** A JSON value (numbers as integers; an object or an array as
    [JsObject]). *)
Inductive JsValue :=
| JsString (s : string)
| JsNumber (n : Z)
| JsBool (b : bool)
| JsNull
| JsObject.

(** JavaScript's [!x] on a field that may hold any JSON value. *)
Definition js_falsy (x : option JsValue) : bool :=
  match x with
  | None => true
  | Some (JsString s) => String.eqb s ""
  | Some (JsNumber n) => n =? 0
  | Some (JsBool b) => negb b
  | Some JsNull => true
  | Some JsObject => false
  end.

Definition is_hex_digit (c : ascii) : bool :=
  let n := nat_of_ascii c in
  (Nat.leb 48 n && Nat.leb n 57) || (Nat.leb 65 n && Nat.leb n 70)
  || (Nat.leb 97 n && Nat.leb n 102).

(** [A]-[F] to [a]-[f] *)
Definition lower_hex_digit (c : ascii) : ascii :=
  let n := nat_of_ascii c in
  if Nat.leb 65 n && Nat.leb n 70 then ascii_of_nat (n + 32) else c.

Definition is_ascii_byte (c : ascii) : bool := Nat.ltb (nat_of_ascii c) 128.

Fixpoint string_forallb (p : ascii -> bool) (s : string) : bool :=
  match s with
  | EmptyString => true
  | String c s' => p c && string_forallb p s'
  end.

Fixpoint string_map (f : ascii -> ascii) (s : string) : string :=
  match s with
  | EmptyString => EmptyString
  | String c s' => String (f c) (string_map f s')
  end.

Definition hex_digit_of (n : nat) : ascii :=
  nth n (list_ascii_of_string "0123456789abcdef") "0"%char.

(** The two hexadecimal digits of a byte, and of every byte of a string. *)
Fixpoint bytes_hex (s : string) : string :=
  match s with
  | EmptyString => EmptyString
  | String c s' =>
      String (hex_digit_of (Nat.div (nat_of_ascii c) 16))
        (String (hex_digit_of (Nat.modulo (nat_of_ascii c) 16)) (bytes_hex s'))
  end.

(** Mongoose's cast of a string to an ObjectId, as [findById] and [create]
    apply it: a string of 24 hexadecimal digits is the ObjectId it
    renders, whatever the case of its digits; with an older driver a
    string of 12 bytes is the ObjectId of these bytes; any other string
    makes the cast throw a [CastError] ([None]). *)
Definition ObjectId_cast `{Platform} (s : string) : option ObjectId :=
  if Nat.eqb (String.length s) 24 && string_forallb is_hex_digit s then
    Some (string_map lower_hex_digit s)
  else if legacy_12_byte_ids && Nat.eqb (String.length s) 12
          && string_forallb is_ascii_byte s then
    Some (bytes_hex s)
  else None.

(** [authenticate], with the cast of [decoded.id] in [User.findById]: when
    it throws, the error is neither a [TokenExpiredError] nor a
    [JsonWebTokenError], and the [catch] block answers with its last
    line. *)
Definition authenticate_raw `{Platform} (db : Db) (authHeader : AuthHeader) (now : Z)
    : Response + AuthUser :=
  match authHeader with
  | NoHeader | NotBearer =>
      inl (mkResponse 401 (Message "No token provided or malformed token"))
  | Bearer token =>
      match jwt_verify token JWT_SECRET now with
      | inr decoded =>
          match ObjectId_cast (jp_id decoded) with
          | None => inl (mkResponse 401 (Message "Not authorized"))
          | Some id =>
              match User_findById db id with
              | None => inl (mkResponse 401 (Message "User not found"))
              | Some u => inr (mkAuthUser (u_id u) (u_email u) (u_createdAt u))
              end
          end
      | inl TokenExpiredError => inl (mkResponse 401 (Message "Token expired"))
      | inl JsonWebTokenError => inl (mkResponse 401 (Message "Invalid token"))
      end
  end.

(** [POST /api/feedback] on the body as it arrives: [codeSnippetId] is a
    string, which [findById] casts; a [CastError] lands in the [catch]
    block.  The feedback is stored under the ObjectId the string casts
    to. *)
Definition post_feedback_raw `{Platform} (db : Db) (user : AuthUser) (b : FeedbackBody)
    (newId : ObjectId) (now : Z) : Db * Response :=
  match codeSnippetId b, feedbackText b with
  | Some sid, Some text =>
      if falsy (codeSnippetId b) || falsy (feedbackText b) then
        (db, mkResponse 400 (Message "Code snippet ID and feedback text are required"))
      else
        match ObjectId_cast sid with
        | None => (db, mkResponse 500 (Message "Failed to submit feedback"))
        | Some id =>
            match CodeSnippet_findById db id with
            | None => (db, mkResponse 404 (Message "Code snippet not found"))
            | Some snippet =>
                if String.eqb (cs_userId snippet) (au_id user) then
                  (db, mkResponse 403 (Message "You cannot review your own code"))
                else
                  let feedback := mkFeedback newId id (au_id user) text now in
                  match Feedback_create db feedback with
                  | None => (db, mkResponse 500 (Message "Failed to submit feedback"))
                  | Some db' => (db', mkResponse 201 (FeedbackDoc feedback))
                  end
            end
        end
  | _, _ =>
      (db, mkResponse 400 (Message "Code snippet ID and feedback text are required"))
  end.

(** [app.post('/api/feedback', authenticate, ...)] on the request as it
    arrives. *)
Definition post_feedback_route `{Platform} (db : Db) (h : AuthHeader) (b : FeedbackBody)
    (newId : ObjectId) (now : Z) : Db * Response :=
  match authenticate_raw db h now with
  | inl r => (db, r)
  | inr user => post_feedback_raw db user b newId now
  end.

(** The body of a login request with a password of any JSON type. *)
Record JsonCredentials := mkJsonCredentials {
  json_email : field;
  json_password : option JsValue
}.

(** [POST /api/auth/login] on such a body: [bcrypt.compare] takes strings
    only and throws on any other password ("Illegal arguments"), which the
    [catch] block answers. *)
Definition post_auth_login_raw `{Platform} (db : Db) (b : JsonCredentials) (now : Z)
    : Db * Response :=
  match json_email b with
  | Some e =>
      if falsy (json_email b) || js_falsy (json_password b) then
        (db, mkResponse 400 (Message "Email and password are required"))
      else
        match User_findOne_email db e with
        | None => (db, mkResponse 401 (Message "Invalid credentials"))
        | Some user =>
            match json_password b with
            | Some (JsString p) =>
                let isMatch := bcrypt_compare p (u_password user) in
                if negb isMatch then
                  (db, mkResponse 401 (Message "Invalid credentials"))
                else
                  let token := jwt_sign (u_id user) JWT_SECRET one_hour now in
                  (db, mkResponse 200
                         (AuthPayload token
                            (mkUserView (u_id user) (u_email user) (u_createdAt user))))
            | _ => (db, mkResponse 500 (Message "Login failed"))
            end
        end
  | None => (db, mkResponse 400 (Message "Email and password are required"))
  end.

(** ** Shapes of a request's effect, and what the stored data satisfies *)

(** Some stored user has this id. *)
Definition user_stored (db : Db) (id : ObjectId) : Prop :=
  exists u, In u (users db) /\ u_id u = id.

(** All a request can do to the database: nothing, or append one document
    to one collection, under the conditions the handler has checked. *)
Inductive change (db db' : Db) : Prop :=
| ch_none : db' = db -> change db db'
| ch_user (u : User) :
    u_email u <> "" ->
    (forall v, In v (users db) -> u_id v <> u_id u /\ u_email v <> u_email u) ->
    db' = mkDb (users db ++ [u]) (snippets db) (feedbacks db) (codes db) ->
    change db db'
| ch_snippet (s : CodeSnippet) :
    user_stored db (cs_userId s) ->
    cs_code s <> "" -> cs_language s <> "" ->
    (forall t, In t (snippets db) -> cs_id t <> cs_id s) ->
    db' = mkDb (users db) (snippets db ++ [s]) (feedbacks db) (codes db) ->
    change db db'
| ch_feedback (f : Feedback) (s : CodeSnippet) :
    user_stored db (fb_reviewerId f) ->
    CodeSnippet_findById db (fb_codeSnippetId f) = Some s ->
    cs_userId s <> fb_reviewerId f ->
    fb_codeSnippetId f <> "" -> fb_feedbackText f <> "" ->
    (forall g, In g (feedbacks db) -> fb_id g <> fb_id f) ->
    db' = mkDb (users db) (snippets db) (feedbacks db ++ [f]) (codes db) ->
    change db db'
| ch_code (c : Code) :
    c_feedbacks c = [] ->
    (forall d, In d (codes db) -> c_id d <> c_id c) ->
    db' = mkDb (users db) (snippets db) (feedbacks db) (codes db ++ [c]) ->
    change db db'.

(** Ids are unique in every collection, and so are the emails of users. *)
Definition unique_keys (db : Db) : Prop :=
  NoDup (map u_id (users db)) /\
  NoDup (map u_email (users db)) /\
  NoDup (map cs_id (snippets db)) /\
  NoDup (map fb_id (feedbacks db)) /\
  NoDup (map c_id (codes db)).

(** The owner of every snippet and the reviewer of every feedback entry
    are stored users, and every feedback entry references a stored
    snippet. *)
Definition references_resolve (db : Db) : Prop :=
  (forall s, In s (snippets db) -> user_stored db (cs_userId s)) /\
  (forall f, In f (feedbacks db) ->
     user_stored db (fb_reviewerId f) /\
     exists s, In s (snippets db) /\ cs_id s = fb_codeSnippetId f).

(** The fields the handlers of [server.js] insist on are never empty. *)
Definition fields_present (db : Db) : Prop :=
  (forall u, In u (users db) -> u_email u <> "") /\
  (forall s, In s (snippets db) -> cs_code s <> "" /\ cs_language s <> "") /\
  (forall f, In f (feedbacks db) -> fb_codeSnippetId f <> "" /\ fb_feedbackText f <> "").

Definition sound (db : Db) : Prop :=
  unique_keys db /\ references_resolve db /\ fields_present db.

(** The [Authorization] header of a request to a route that runs
    [authenticate] first. *)
Definition auth_header (req : Request) : option AuthHeader :=
  match req with
  | PostCode h _ _ | GetCodeRandom h _ | GetCodeMySubmissions h
  | PostFeedback h _ _ | GetProtected h => Some h
  | _ => None
  end.

(** The routes whose handlers call no [create] or [save]. *)
Definition read_only (req : Request) : bool :=
  match req with
  | PostAuthLogin _ | GetCodeRandom _ _ | GetCodeMySubmissions _ | GetProtected _
  | RouterGetRandom _ _ | RouterGetMine _ => true
  | _ => false
  end.

(** The draw whose index among [n] documents is [i]. *)
Definition mantissa_for (i n : Z) : Z := (i * 2 ^ 53 + n - 1) / n.

(** ** A platform and data to run the handlers on *)

Definition demo_platform : Platform := {|
  bcrypt_hash p salt := ("$2a$12$" ++ p)%string;
  bcrypt_compare p h := String.eqb h ("$2a$12$" ++ p)%string;
  hmac secret p := (secret ++ "." ++ jp_id p)%string;
  JWT_SECRET := "s3cret";
  legacy_12_byte_ids := false
|}.

Definition draw_zero : Draw := mkDraw 0 eq_refl.
Definition draw_top : Draw := mkDraw (2 ^ 53 - 1) eq_refl.

Definition alice : AuthUser := mkAuthUser "a1" "alice@example.org" 10.
Definition bob : AuthUser := mkAuthUser "b2" "bob@example.org" 20.

(** Two snippets of alice and one of bob, with one review of each author's
    first snippet by the other; three [Code] documents. *)
Definition demo_db : Db := mkDb
  [ mkUser "a1" "alice@example.org" "$2a$12$wonderland" 10;
    mkUser "b2" "bob@example.org" "$2a$12$builder" 20 ]
  [ mkCodeSnippet "s1" "print(1)" "python" "a1" 100;
    mkCodeSnippet "s2" "console.log(2)" "javascript" "b2" 200;
    mkCodeSnippet "s3" "puts 3" "ruby" "a1" 300 ]
  [ mkFeedback "f1" "s1" "b2" "looks fine" 400;
    mkFeedback "f2" "s2" "a1" "use let" 500;
    mkFeedback "f3" "s1" "b2" "add a test" 600 ]
  [ mkCode "k1" "a1" (Some "print(1)") 100 [];
    mkCode "k2" "a1" (Some "print(2)") 200 [];
    mkCode "k3" "b2" (Some "print(3)") 300 [] ].

(** A database where only alice has submitted. *)
Definition solo_db : Db := mkDb
  [ mkUser "a1" "alice@example.org" "$2a$12$wonderland" 10 ]
  [ mkCodeSnippet "s1" "print(1)" "python" "a1" 100 ]
  []
  [ mkCode "k1" "a1" (Some "print(1)") 100 [] ].

(** Alice and bob register, each submits a snippet, each tries to review
    alice's snippet, and alice lists her submissions. *)
Definition alice_token : Token := @jwt_sign demo_platform "a1" "s3cret" one_hour 1000.
Definition bob_token : Token := @jwt_sign demo_platform "b2" "s3cret" one_hour 2000.

Definition demo_session : list (Request * Z) :=
  [ (PostAuthRegister (mkCredentials (Some "alice@example.org") (Some "wonderland")) "a1" "salt1",
     1000);
    (PostAuthRegister (mkCredentials (Some "bob@example.org") (Some "builder")) "b2" "salt2",
     2000);
    (PostCode (Bearer (Jwt alice_token)) (mkCodeBody (Some "print(1)") None) "s1", 3000);
    (PostCode (Bearer (Jwt bob_token)) (mkCodeBody (Some "puts 2") (Some "ruby")) "s2", 4000);
    (PostFeedback (Bearer (Jwt alice_token)) (mkFeedbackBody (Some "s1") (Some "great")) "f1",
     5000);
    (PostFeedback (Bearer (Jwt bob_token)) (mkFeedbackBody (Some "s1") (Some "looks fine")) "f2",
     6000);
    (GetCodeMySubmissions (Bearer (Jwt alice_token)), 7000) ].

Definition ben : AuthUser := mkAuthUser "64b000000000000000000002" "ben@example.org" 20.

Definition hex_db : Db := mkDb
  [ mkUser "64a000000000000000000001" "ann@example.org" "$2a$12$secret1" 10;
    mkUser "64b000000000000000000002" "ben@example.org" "$2a$12$secret2" 20 ]
  [ mkCodeSnippet "65c0000000000000000000a1" "print(1)" "python" "64a000000000000000000001" 100;
    mkCodeSnippet "65c0000000000000000000b2" "puts 2" "ruby" "64b000000000000000000002" 200 ]
  []
  [].

(** * Properties *)

(** ** The random draw *)

Lemma mantissa_bounds (d : Draw) : 0 <= mantissa d < 2 ^ 53.
Proof.
  destruct d as [m Hm]; simpl.
  apply andb_true_iff in Hm as [H0 H1].
  apply Z.leb_le in H0. apply Z.ltb_lt in H1. lia.
Qed.

(** What [round53] does: nothing to a number of at most 53 bits; else it
    cuts the [k] bits below the 53 leading ones, and goes up only from the
    half on. *)
Lemma round53_cases (p : Z) :
  0 <= p ->
  (Z.log2 p - 52 <= 0 /\ round53 p = p) \/
  (exists k q r,
     0 < k /\ 2 ^ 52 * 2 ^ k <= p /\ p = q * 2 ^ k + r /\ 0 <= r < 2 ^ k /\
     (round53 p = q * 2 ^ k \/ (round53 p = (q + 1) * 2 ^ k /\ 2 ^ (k - 1) <= r))).
Proof.
  intros Hp. unfold round53.
  set (k := Z.log2 p - 52).
  destruct (Z.leb_spec k 0) as [Hk | Hk]; [left; split; [lia | reflexivity] | right].
  assert (Hpos : 0 < p).
  { destruct (Z.eq_dec p 0) as [-> | Hne]; [| lia]. unfold k in Hk. simpl in Hk. lia. }
  exists k, (p / 2 ^ k), (p mod 2 ^ k).
  assert (Hpow : 0 < 2 ^ k) by (apply Z.pow_pos_nonneg; lia).
  pose proof (Z.log2_spec p Hpos) as [Hlo _].
  replace (Z.log2 p) with (52 + k) in Hlo by (unfold k; lia).
  rewrite Z.pow_add_r in Hlo by lia.
  pose proof (Z.div_mod p (2 ^ k) ltac:(lia)) as Hdiv.
  pose proof (Z.mod_pos_bound p (2 ^ k) Hpow) as Hmod.
  split; [exact Hk | split; [exact Hlo | split; [lia | split; [exact Hmod |]]]].
  cbv zeta.
  destruct (Z.ltb_spec (p mod 2 ^ k) (2 ^ (k - 1))); [now left |].
  destruct (Z.ltb_spec (2 ^ (k - 1)) (p mod 2 ^ k)); [right; split; [reflexivity | lia] |].
  destruct (Z.even (p / 2 ^ k)); [now left | right; split; [reflexivity | lia]].
Qed.

Lemma pow2_split (k : Z) : 0 < k -> 2 ^ k = 2 * 2 ^ (k - 1).
Proof.
  intros Hk. replace k with (1 + (k - 1)) at 1 by lia.
  rewrite Z.pow_add_r by lia. reflexivity.
Qed.

Lemma pow2_53_split (k : Z) : 0 <= k <= 53 -> 2 ^ 53 = 2 ^ (53 - k) * 2 ^ k.
Proof.
  intros Hk. rewrite <- Z.pow_add_r by lia. f_equal. lia.
Qed.

Lemma round53_nonneg (p : Z) : 0 <= p -> 0 <= round53 p.
Proof.
  intros Hp.
  destruct (round53_cases p Hp) as [[_ ->] | (k & q & r & Hk & Hlo & Heq & Hr & Hres)];
    [exact Hp |].
  assert (Hpow : 0 < 2 ^ k) by (apply Z.pow_pos_nonneg; lia).
  assert (0 <= q) by nia.
  destruct Hres as [-> | [-> _]]; nia.
Qed.

(** [u * 2^53] is a double.  A product that stays [g] below it, where [g]
    is more than half the distance between neighbouring doubles at the
    product, is not rounded up to it. *)
Lemma round53_below (p u g : Z) :
  0 <= p -> p < 2 ^ 106 ->
  p + g <= u * 2 ^ 53 -> 0 < g -> p < 2 ^ 53 * g ->
  round53 p < u * 2 ^ 53.
Proof.
  intros Hp Hbig Hgap Hg Hmag.
  destruct (round53_cases p Hp) as [[_ ->] | (k & q & r & Hk & Hlo & Heq & Hr & Hres)];
    [lia |].
  assert (Hk53 : k < 54).
  { apply (Z.pow_lt_mono_r_iff 2); [lia | lia |].
    assert (2 ^ 52 * 2 ^ k < 2 ^ 52 * 2 ^ 54) by (change (2 ^ 52 * 2 ^ 54) with (2 ^ 106); lia).
    nia. }
  pose proof (pow2_split k Hk) as Hsplit.
  pose proof (pow2_53_split k ltac:(lia)) as H53.
  set (K := 2 ^ k) in *. set (H := 2 ^ (k - 1)) in *. set (E := 2 ^ (53 - k)) in *.
  assert (HH : 0 < H) by (apply Z.pow_pos_nonneg; lia).
  assert (HE : 0 < E) by (apply Z.pow_pos_nonneg; lia).
  assert (HHg : H < g).
  { change (2 ^ 53) with (2 ^ 52 * 2) in Hmag. change (2 ^ 52) with 4503599627370496 in *. nia. }
  rewrite H53 in *.
  assert (Hq : q < u * E) by nia.
  destruct Hres as [-> | [-> Hr2]]; [nia |].
  assert (q + 1 <= u * E) by lia.
  destruct (Z.eq_dec (q + 1) (u * E)) as [Hequ | Hne]; [| nia].
  exfalso. nia.
Qed.

(** A product at or above the double [a * 2^53] is not rounded below it. *)
Lemma round53_above (p a : Z) :
  0 <= a -> a * 2 ^ 53 <= p -> p < 2 ^ 106 -> a * 2 ^ 53 <= round53 p.
Proof.
  intros Ha Hlow Hbig.
  assert (Hp : 0 <= p) by lia.
  destruct (round53_cases p Hp) as [[_ ->] | (k & q & r & Hk & Hlo & Heq & Hr & Hres)];
    [lia |].
  assert (Hk53 : k < 54).
  { apply (Z.pow_lt_mono_r_iff 2); [lia | lia |].
    assert (2 ^ 52 * 2 ^ k < 2 ^ 52 * 2 ^ 54) by (change (2 ^ 52 * 2 ^ 54) with (2 ^ 106); lia).
    nia. }
  pose proof (pow2_53_split k ltac:(lia)) as H53.
  set (K := 2 ^ k) in *. set (E := 2 ^ (53 - k)) in *.
  assert (HK : 0 < K) by (apply Z.pow_pos_nonneg; lia).
  assert (HE : 0 < E) by (apply Z.pow_pos_nonneg; lia).
  rewrite H53 in *.
  assert (Hq : a * E <= q) by nia.
  destruct Hres as [-> | [-> _]]; nia.
Qed.

(** The rounded product never reaches the count: the index is in range. *)
Lemma floor_random_range (d : Draw) (n : Z) :
  0 < n <= 2 ^ 53 -> 0 <= floor_random d n < n.
Proof.
  intros Hn. unfold floor_random.
  pose proof (mantissa_bounds d) as [H0 H1].
  assert (Hp : 0 <= mantissa d * n) by nia.
  assert (Hbig : mantissa d * n < 2 ^ 106).
  { change (2 ^ 106) with (2 ^ 53 * 2 ^ 53). nia. }
  split.
  - apply Z.div_pos; [now apply round53_nonneg | reflexivity].
  - apply Z.div_lt_upper_bound; [reflexivity |].
    rewrite (Z.mul_comm (2 ^ 53) n).
    apply (round53_below _ n n); try lia; nia.
Qed.

(** On these draws and counts (among them the largest mantissa, counts
    next to powers of two, and draws at which the rounding decides the
    index) [floor_random] is what the machine's doubles compute. *)
Example floor_random_agrees_with_doubles :
  forallb
    (fun mn =>
       match Bool.bool_dec ((0 <=? fst mn) && (fst mn <? 2 ^ 53)) true with
       | left H => floor_random (mkDraw (fst mn) H) (snd mn)
                   =? floor_random_double (fst mn) (snd mn)
       | right _ => false
       end)
    [ (5146971002709138, 7); (5404319552844595, 5);
      (2 ^ 53 - 1, 1); (2 ^ 53 - 1, 2); (2 ^ 53 - 1, 3); (2 ^ 53 - 1, 7);
      (2 ^ 53 - 1, 2 ^ 20 + 1); (2 ^ 53 - 1, 2 ^ 52); (2 ^ 53 - 1, 2 ^ 52 + 1);
      (2 ^ 53 - 1, 2 ^ 53 - 2 ^ 30); (2 ^ 53 - 1, 2 ^ 53 - 1); (2 ^ 53 - 1, 2 ^ 53);
      (2 ^ 53 - 2, 3); (2 ^ 53 - 2, 2 ^ 53 - 1); (2 ^ 52 + 1, 2 ^ 53 - 1);
      (2 ^ 52, 5); (2 ^ 52 + 2 ^ 29 + 65, 2 ^ 53 - 2 ^ 30);
      (2 ^ 52 + 2 ^ 29 + 64, 2 ^ 53 - 2 ^ 30);
      (6004799503160661, 3); (3002399751580331, 6); (1286742750677285, 14);
      (7205759403792794, 10); (8106479329266893, 100); (1, 2 ^ 53); (0, 12);
      (4503599627370497, 1000003); (9007199254740881, 999983);
      (123456789012345, 4294967295) ]
  = true.
Proof. vm_compute. reflexivity. Qed.

(** Two draws at which rounding the product first changes the index. *)
Example floor_random_rounds_first :
  floor_random (mkDraw 5146971002709138 eq_refl) 7 = 4 /\
  5146971002709138 * 7 / 2 ^ 53 = 3 /\
  floor_random (mkDraw 5404319552844595 eq_refl) 5 = 3 /\
  5404319552844595 * 5 / 2 ^ 53 = 2.
Proof. repeat split. Qed.

(** The index drawn among [n > 0] documents always hits one of them. *)
Lemma drawn_index_hits {A : Type} (l : list A) (d : Draw) :
  l <> [] ->
  Z.of_nat (List.length l) <= 2 ^ 53 ->
  exists x, nth_error l (Z.to_nat (floor_random d (Z.of_nat (List.length l)))) = Some x.
Proof.
  intros Hl Hsafe.
  assert (Hn : 0 < Z.of_nat (List.length l) <= 2 ^ 53).
  { destruct l; [congruence | simpl in *; lia]. }
  pose proof (floor_random_range d _ Hn) as [H0 H1].
  destruct (nth_error l (Z.to_nat (floor_random d (Z.of_nat (List.length l))))) eqn:E.
  - eauto.
  - apply nth_error_None in E. lia.
Qed.

Lemma filter_nonempty {A : Type} (p : A -> bool) (l : list A) (x : A) :
  In x l -> p x = true -> filter p l <> [].
Proof.
  intros Hin Hp Hnil.
  assert (In x (filter p l)) as H by (apply filter_In; auto).
  rewrite Hnil in H. exact H.
Qed.

Lemma length_zero_nil {A : Type} (l : list A) :
  (Z.of_nat (List.length l) =? 0) = true -> l = [].
Proof.
  intros H. apply Z.eqb_eq in H. destruct l; [reflexivity | simpl in H; lia].
Qed.

Lemma length_nonzero {A : Type} (l : list A) :
  l <> [] -> (Z.of_nat (List.length l) =? 0) = false.
Proof.
  intros H. apply Z.eqb_neq. destruct l; [congruence | simpl; lia].
Qed.

Lemma not_owned_by_spec (id : ObjectId) (s : CodeSnippet) :
  not_owned_by id s = true <-> cs_userId s <> id.
Proof.
  unfold not_owned_by. rewrite negb_true_iff. apply String.eqb_neq.
Qed.

(** ** Review assignment *)

(** C1.  Whenever some stored snippet is not the requester's, the handler
    of [GET /api/code/random] answers with a stored snippet that is not
    the requester's, whatever the random draw; and so does the router's
    [GET /random] on its own collection.  The index is computed in double
    arithmetic, where the rounded product [Math.random() * count] never
    reaches the count; the count is a JavaScript number, exact up to
    2^53. *)
Theorem pick_for_review_excludes_requester :
  forall (db : Db) (user : AuthUser) (d : Draw),
    ((exists s, In s (snippets db) /\ cs_userId s <> au_id user) ->
     Z.of_nat (List.length (filter (not_owned_by (au_id user)) (snippets db))) <= 2 ^ 53 ->
     exists s, In s (snippets db) /\ cs_userId s <> au_id user /\
       get_code_random db user d = (db, mkResponse 200 (SnippetDoc (Some s))))
    /\
    ((exists c, In c (codes db) /\ c_user c <> au_id user) ->
     Z.of_nat (List.length
                 (filter (fun c => negb (String.eqb (c_user c) (au_id user))) (codes db)))
     <= 2 ^ 53 ->
     exists c, In c (codes db) /\ c_user c <> au_id user /\
       router_get_random db (au_id user) d
       = (db, mkResponse 200 (CodePick (c_code c) (c_id c)))).
Proof.
  intros db user d. split.
  - intros [s0 [Hin Hne]] Hsafe.
    assert (Hl : filter (not_owned_by (au_id user)) (snippets db) <> []).
    { apply (filter_nonempty _ _ s0 Hin). now apply not_owned_by_spec. }
    destruct (drawn_index_hits _ d Hl Hsafe) as [s Hs].
    exists s.
    pose proof (nth_error_In _ _ Hs) as Hf.
    apply filter_In in Hf as [Hs_in Hs_ne].
    apply not_owned_by_spec in Hs_ne.
    repeat split; auto.
    unfold get_code_random.
    rewrite (length_nonzero _ Hl). cbv zeta. now rewrite Hs.
  - intros [c0 [Hin Hne]] Hsafe.
    set (p := fun c => negb (String.eqb (c_user c) (au_id user))) in *.
    assert (Hl : filter p (codes db) <> []).
    { apply (filter_nonempty _ _ c0 Hin). unfold p.
      rewrite negb_true_iff. now apply String.eqb_neq. }
    destruct (drawn_index_hits _ d Hl Hsafe) as [c Hc].
    exists c.
    pose proof (nth_error_In _ _ Hc) as Hf.
    apply filter_In in Hf as [Hc_in Hc_ne].
    unfold p in Hc_ne. rewrite negb_true_iff in Hc_ne.
    apply String.eqb_neq in Hc_ne.
    repeat split; auto.
    unfold router_get_random. fold p.
    rewrite (length_nonzero _ Hl). cbv zeta. now rewrite Hc.
Qed.

Lemma pick_for_review_excludes_requester_witness :
  (exists s, In s (snippets demo_db) /\ cs_userId s <> au_id alice /\
     get_code_random demo_db alice draw_top
     = (demo_db, mkResponse 200 (SnippetDoc (Some s))))
  /\
  (exists c, In c (codes demo_db) /\ c_user c <> au_id alice /\
     router_get_random demo_db (au_id alice) draw_top
     = (demo_db, mkResponse 200 (CodePick (c_code c) (c_id c)))).
Proof.
  destruct (pick_for_review_excludes_requester demo_db alice draw_top) as [H1 H2].
  split.
  - apply H1; [| vm_compute; discriminate].
    exists (mkCodeSnippet "s2" "console.log(2)" "javascript" "b2" 200).
    split; [simpl; auto | simpl; discriminate].
  - apply H2; [| vm_compute; discriminate].
    exists (mkCode "k3" "b2" (Some "print(3)") 300 []).
    split; [simpl; auto | simpl; discriminate].
Defined.

(** C4.  When no stored snippet belongs to somebody else, the handler of
    [GET /api/code/random] answers 404 (NotFound) with the same message
    for every draw and leaves the database alone; the router's
    [GET /random] answers 200 with [{ code: null }] for every draw.
    Neither answer is a fault (status 500). *)
Theorem pick_for_review_nothing_eligible :
  forall (db : Db) (user : AuthUser) (d : Draw),
    ((forall s, In s (snippets db) -> cs_userId s = au_id user) ->
     get_code_random db user d
     = (db, mkResponse 404 (Message "No code available for review"))
     /\ error_kind (snd (get_code_random db user d)) = Some NotFound
     /\ is_fault (snd (get_code_random db user d)) = false)
    /\
    ((forall c, In c (codes db) -> c_user c = au_id user) ->
     router_get_random db (au_id user) d = (db, mkResponse 200 CodeNull)
     /\ is_fault (snd (router_get_random db (au_id user) d)) = false).
Proof.
  intros db user d. split.
  - intros Hall.
    assert (Hnil : filter (not_owned_by (au_id user)) (snippets db) = []).
    { destruct (filter (not_owned_by (au_id user)) (snippets db)) as [|s l] eqn:E;
        [reflexivity | exfalso].
      assert (In s (filter (not_owned_by (au_id user)) (snippets db))) as Hs
          by (rewrite E; now left).
      apply filter_In in Hs as [Hin Hne].
      apply not_owned_by_spec in Hne. auto. }
    assert (Heq : get_code_random db user d
                  = (db, mkResponse 404 (Message "No code available for review"))).
    { unfold get_code_random. now rewrite Hnil. }
    rewrite Heq. auto.
  - intros Hall.
    set (p := fun c => negb (String.eqb (c_user c) (au_id user))).
    assert (Hnil : filter p (codes db) = []).
    { destruct (filter p (codes db)) as [|c l] eqn:E; [reflexivity | exfalso].
      assert (In c (filter p (codes db))) as Hc by (rewrite E; now left).
      apply filter_In in Hc as [Hin Hne].
      unfold p in Hne. rewrite negb_true_iff in Hne.
      apply String.eqb_neq in Hne. auto. }
    assert (Heq : router_get_random db (au_id user) d = (db, mkResponse 200 CodeNull)).
    { unfold router_get_random. fold p. now rewrite Hnil. }
    rewrite Heq. auto.
Qed.

Lemma pick_for_review_nothing_eligible_witness :
  (get_code_random solo_db alice draw_top
   = (solo_db, mkResponse 404 (Message "No code available for review"))
   /\ error_kind (snd (get_code_random solo_db alice draw_top)) = Some NotFound
   /\ is_fault (snd (get_code_random solo_db alice draw_top)) = false)
  /\
  (router_get_random solo_db (au_id alice) draw_top
   = (solo_db, mkResponse 200 CodeNull)
   /\ is_fault (snd (router_get_random solo_db (au_id alice) draw_top)) = false).
Proof.
  destruct (pick_for_review_nothing_eligible solo_db alice draw_top) as [H1 H2].
  split.
  - apply H1. simpl. intros s [<- | []]. reflexivity.
  - apply H2. simpl. intros c [<- | []]. reflexivity.
Defined.

(** ** Feedback submission *)

Lemma falsy_some (s : string) : s <> "" -> falsy (Some s) = false.
Proof. intros H. simpl. now apply String.eqb_neq. Qed.

Lemma falsy_true_cases (x : field) : falsy x = true -> x = None \/ x = Some "".
Proof.
  destruct x as [s|]; simpl; intros H; [right | now left].
  apply String.eqb_eq in H. now subst.
Qed.


Lemma CodeSnippet_findById_some (db : Db) (sid : ObjectId) (s : CodeSnippet) :
  CodeSnippet_findById db sid = Some s -> In s (snippets db) /\ cs_id s = sid.
Proof.
  unfold CodeSnippet_findById. intros E.
  apply find_some in E as [Hin Heq]. apply String.eqb_eq in Heq. auto.
Qed.

Lemma Feedback_create_fresh (db : Db) (f : Feedback) :
  (forall g, In g (feedbacks db) -> fb_id g <> fb_id f) ->
  Feedback_create db f
  = Some (mkDb (users db) (snippets db) (feedbacks db ++ [f]) (codes db)).
Proof.
  intros H. unfold Feedback_create.
  destruct (existsb _ _) eqn:E; [exfalso | reflexivity].
  apply existsb_exists in E as [g [Hin Heq]].
  apply String.eqb_eq in Heq. exact (H g Hin Heq).
Qed.

Lemma ObjectId_cast_nonempty `{Platform} (s : string) (id : ObjectId) :
  ObjectId_cast s = Some id -> id <> "".
Proof.
  unfold ObjectId_cast.
  destruct (Nat.eqb (String.length s) 24 && string_forallb is_hex_digit s) eqn:E24.
  - intros [= <-]. apply andb_true_iff in E24 as [Hlen _].
    apply Nat.eqb_eq in Hlen. destruct s; [discriminate | discriminate].
  - destruct (legacy_12_byte_ids && Nat.eqb (String.length s) 12
              && string_forallb is_ascii_byte s) eqn:E12; [| discriminate].
    intros [= <-]. apply andb_true_iff in E12 as [E12 _].
    apply andb_true_iff in E12 as [_ Hlen].
    apply Nat.eqb_eq in Hlen. destruct s; [discriminate | discriminate].
Qed.

(** A string of fewer than 12 characters is no ObjectId for any driver. *)
Lemma ObjectId_cast_short `{Platform} (s : string) :
  (String.length s < 12)%nat -> ObjectId_cast s = None.
Proof.
  intros Hlen. unfold ObjectId_cast.
  destruct (Nat.eqb_spec (String.length s) 24) as [E | _]; [lia |].
  destruct (Nat.eqb_spec (String.length s) 12) as [E | _]; [lia |].
  cbn [andb]. now rewrite andb_false_r.
Qed.

(** From the cast on, the handler on the raw body is the handler on the
    ObjectId. *)
Lemma post_feedback_raw_cast `{Platform} (db : Db) (user : AuthUser)
    (sid text : string) (id newId : ObjectId) (now : Z) :
  sid <> "" ->
  ObjectId_cast sid = Some id ->
  post_feedback_raw db user (mkFeedbackBody (Some sid) (Some text)) newId now
  = post_feedback db user (mkFeedbackBody (Some id) (Some text)) newId now.
Proof.
  intros Hsid Hcast.
  pose proof (ObjectId_cast_nonempty sid id Hcast) as Hid.
  apply String.eqb_neq in Hsid, Hid.
  unfold post_feedback_raw, post_feedback. cbn [codeSnippetId feedbackText falsy].
  rewrite Hsid, Hid. cbn [orb].
  destruct (String.eqb text ""); [reflexivity |].
  now rewrite Hcast.
Qed.




(** ** Snippet submission *)

(** [POST /api/code] refuses a missing or empty [code] with 400 and
    stores nothing. *)
Lemma post_code_requires_code (db : Db) (user : AuthUser) (b : CodeBody)
    (newId : ObjectId) (now : Z) :
  falsy (code b) = true ->
  post_code db user b newId now = (db, mkResponse 400 (Message "Code is required")).
Proof.
  intros H. unfold post_code.
  destruct (code b) as [c|]; [now rewrite H | reflexivity].
Qed.

(** What [POST /api/code] does to the database: nothing, or it appends one
    snippet with non-empty code and an id no stored snippet has. *)
Lemma post_code_db (db : Db) (user : AuthUser) (b : CodeBody)
    (newId : ObjectId) (now : Z) :
  fst (post_code db user b newId now) = db \/
  exists c,
    code b = Some c /\ c <> "" /\
    (forall t, In t (snippets db) -> cs_id t <> newId) /\
    fst (post_code db user b newId now)
    = mkDb (users db)
        (snippets db ++
           [mkCodeSnippet newId c (or_default (language b) "javascript") (au_id user) now])
        (feedbacks db) (codes db).
Proof.
  unfold post_code.
  destruct (code b) as [c|] eqn:Ec; [| now left].
  destruct (falsy (Some c)) eqn:Ef; [now left |].
  unfold CodeSnippet_create. cbn [cs_id].
  destruct (existsb _ _) eqn:Ex; [now left |].
  right. exists c. repeat split.
  - simpl in Ef. now apply String.eqb_neq.
  - intros t Hin Heq.
    assert (existsb (fun t0 => String.eqb (cs_id t0) newId) (snippets db) = true) as Hx.
    { apply existsb_exists. exists t. split; auto. now apply String.eqb_eq. }
    congruence.
Qed.

(** C9, on the router.  [router.post('/')] stores a [Code] document and
    answers 201 whether or not the request carries any code: here for a
    body without [code] and for one whose [code] is the empty string. *)
Theorem router_post_stores_absent_code :
  router_post empty_db "a1" None "k1" 100
  = (mkDb [] [] [] [mkCode "k1" "a1" None 100 []],
     mkResponse 201 (Message "Code submitted"))
  /\
  router_post empty_db "a1" (Some "") "k1" 100
  = (mkDb [] [] [] [mkCode "k1" "a1" (Some "") 100 []],
     mkResponse 201 (Message "Code submitted"))
  /\
  post_code empty_db alice (mkCodeBody None None) "s1" 100
  = (empty_db, mkResponse 400 (Message "Code is required"))
  /\
  post_code empty_db alice (mkCodeBody (Some "") None) "s1" 100
  = (empty_db, mkResponse 400 (Message "Code is required")).
Proof. repeat split. Qed.

Lemma CodeSnippet_create_fresh (db : Db) (s : CodeSnippet) :
  (forall t, In t (snippets db) -> cs_id t <> cs_id s) ->
  CodeSnippet_create db s
  = Some (mkDb (users db) (snippets db ++ [s]) (feedbacks db) (codes db)).
Proof.
  intros H. unfold CodeSnippet_create.
  destruct (existsb _ _) eqn:E; [exfalso | reflexivity].
  apply existsb_exists in E as [t [Hin Heq]].
  apply String.eqb_eq in Heq. exact (H t Hin Heq).
Qed.

(** C10.  [POST /api/code] with non-empty code (and an id the driver has
    not used yet) stores one snippet and answers 201 with it; its language
    is ['javascript'] when the request's [language] is absent or empty, and
    exactly the given tag otherwise. *)
Theorem submitted_snippet_language :
  forall (db : Db) (user : AuthUser) (c : string) (lang : field)
         (newId : ObjectId) (now : Z),
    c <> "" ->
    (forall t, In t (snippets db) -> cs_id t <> newId) ->
    exists snippet,
      post_code db user (mkCodeBody (Some c) lang) newId now
      = (mkDb (users db) (snippets db ++ [snippet]) (feedbacks db) (codes db),
         mkResponse 201 (SnippetDoc (Some snippet)))
      /\ (falsy lang = true -> cs_language snippet = "javascript")
      /\ (forall tag, lang = Some tag -> tag <> "" -> cs_language snippet = tag).
Proof.
  intros db user c lang newId now Hc Hfresh.
  exists (mkCodeSnippet newId c (or_default lang "javascript") (au_id user) now).
  split; [| split].
  - unfold post_code. cbn [code language].
    rewrite (falsy_some _ Hc).
    now rewrite CodeSnippet_create_fresh.
  - intros Hf. cbn [cs_language].
    destruct (falsy_true_cases _ Hf) as [-> | ->]; reflexivity.
  - intros tag -> Htag. simpl. apply String.eqb_neq in Htag. now rewrite Htag.
Qed.

Lemma submitted_snippet_language_witness :
  (exists snippet,
     post_code demo_db bob (mkCodeBody (Some "x = 1") None) "s4" 700
     = (mkDb (users demo_db) (snippets demo_db ++ [snippet]) (feedbacks demo_db)
          (codes demo_db),
        mkResponse 201 (SnippetDoc (Some snippet)))
     /\ (falsy None = true -> cs_language snippet = "javascript")
     /\ (forall tag, None = Some tag -> tag <> "" -> cs_language snippet = tag))
  /\
  (exists snippet,
     post_code demo_db bob (mkCodeBody (Some "x = 1") (Some "python")) "s4" 700
     = (mkDb (users demo_db) (snippets demo_db ++ [snippet]) (feedbacks demo_db)
          (codes demo_db),
        mkResponse 201 (SnippetDoc (Some snippet)))
     /\ (falsy (Some "python") = true -> cs_language snippet = "javascript")
     /\ (forall tag, Some "python" = Some tag -> tag <> "" -> cs_language snippet = tag)).
Proof.
  split.
  - apply (submitted_snippet_language demo_db bob "x = 1" None "s4" 700);
      [discriminate |].
    simpl. intros t [<- | [<- | [<- | []]]]; discriminate.
  - apply (submitted_snippet_language demo_db bob "x = 1" (Some "python") "s4" 700);
      [discriminate |].
    simpl. intros t [<- | [<- | [<- | []]]]; discriminate.
Defined.

(** ** Token service and access guard *)

Lemma seconds_before (now bound : Z) : now < 1000 * bound <-> seconds now < bound.
Proof.
  unfold seconds. split; intros H.
  - apply Z.div_lt_upper_bound; lia.
  - destruct (Z_lt_le_dec now (1000 * bound)) as [Hlt | Hge]; [exact Hlt | exfalso].
    assert (bound <= now / 1000) by (apply Z.div_le_lower_bound; lia). lia.
Qed.

Lemma jwt_verify_own_signature `{Platform} (id : ObjectId) (secret : string)
    (expiresIn issued now : Z) :
  jwt_verify (Jwt (jwt_sign id secret expiresIn issued)) secret now
  = if seconds issued + expiresIn <=? seconds now then inl TokenExpiredError
    else inr (mkJwtPayload id (seconds issued) (seconds issued + expiresIn)).
Proof.
  unfold jwt_verify, jwt_sign. cbn [tk_signature tk_payload jp_exp].
  now rewrite String.eqb_refl.
Qed.

(** C7.  A token issued for an identity at time [issued] expires exactly
    3600 seconds after its issue time.  Verified under the same secret
    while the clock is before that instant it yields the identity, and the
    access guard admits the stored user of that identity; from that
    instant on verification fails with [TokenExpiredError], which the
    access guard answers with 401.  (Times are [Date.now()] milliseconds;
    the token's own clock counts whole seconds.) *)
Theorem token_valid_until_expiry `{Platform} :
  forall (db : Db) (id : ObjectId) (secret : string) (issued now : Z),
    let token := jwt_sign id secret one_hour issued in
    let expiry := jp_exp (tk_payload token) in
    jp_id (tk_payload token) = id /\
    expiry = jp_iat (tk_payload token) + 3600 /\
    jp_iat (tk_payload token) = seconds issued /\
    (now < 1000 * expiry ->
     (exists decoded,
        jwt_verify (Jwt token) secret now = inr decoded /\ jp_id decoded = id) /\
     (forall u, secret = JWT_SECRET -> User_findById db id = Some u ->
        authenticate db (Bearer (Jwt token)) now
        = inr (mkAuthUser (u_id u) (u_email u) (u_createdAt u)))) /\
    (1000 * expiry <= now ->
     jwt_verify (Jwt token) secret now = inl TokenExpiredError /\
     (secret = JWT_SECRET ->
      authenticate db (Bearer (Jwt token)) now
      = inl (mkResponse 401 (Message "Token expired")))).
Proof.
  intros db id secret issued now token expiry.
  assert (Hexp : expiry = seconds issued + one_hour) by reflexivity.
  assert (Hverify : jwt_verify (Jwt token) secret now
                    = if expiry <=? seconds now then inl TokenExpiredError
                      else inr (tk_payload token)).
  { unfold token. rewrite jwt_verify_own_signature. now rewrite Hexp. }
  split; [reflexivity | split; [reflexivity | split; [reflexivity | split]]].
  - intros Hbefore. apply seconds_before in Hbefore.
    assert (Hleb : (expiry <=? seconds now) = false) by (apply Z.leb_gt; lia).
    rewrite Hleb in Hverify.
    split.
    + exists (tk_payload token). split; [exact Hverify | reflexivity].
    + intros u -> Hu. unfold authenticate. rewrite Hverify.
      change (jp_id (tk_payload token)) with id. now rewrite Hu.
  - intros Hpast.
    assert (Hnot : ~ seconds now < expiry) by (rewrite <- seconds_before; lia).
    assert (Hleb : (expiry <=? seconds now) = true) by (apply Z.leb_le; lia).
    rewrite Hleb in Hverify.
    split; [exact Hverify |].
    intros ->. unfold authenticate. now rewrite Hverify.
Qed.

Lemma token_valid_until_expiry_witness :
  (exists decoded,
     @jwt_verify demo_platform
       (Jwt (@jwt_sign demo_platform "a1" "s3cret" one_hour 5000)) "s3cret" 3604999
     = inr decoded /\ jp_id decoded = "a1")
  /\
  @jwt_verify demo_platform
    (Jwt (@jwt_sign demo_platform "a1" "s3cret" one_hour 5000)) "s3cret" 3605000
  = inl TokenExpiredError.
Proof.
  split.
  - pose proof (@token_valid_until_expiry demo_platform demo_db "a1" "s3cret" 5000 3604999)
      as Hw.
    cbv zeta in Hw. destruct Hw as (_ & _ & _ & Hvalid & _).
    apply Hvalid. vm_compute. reflexivity.
  - pose proof (@token_valid_until_expiry demo_platform demo_db "a1" "s3cret" 5000 3605000)
      as Hw.
    cbv zeta in Hw. destruct Hw as (_ & _ & _ & _ & Hexpired).
    apply Hexpired. vm_compute. discriminate.
Defined.

(** ** Login *)

Lemma User_findOne_email_none (db : Db) (e : string) :
  (forall u, In u (users db) -> u_email u <> e) -> User_findOne_email db e = None.
Proof.
  intros H. unfold User_findOne_email.
  destruct (find _ _) as [u|] eqn:E; [exfalso | reflexivity].
  apply find_some in E as [Hin Heq].
  apply String.eqb_eq in Heq. exact (H u Hin Heq).
Qed.

(** Login with a password that is a string.  Take a database in which the
    email belongs to an account whose stored hash the password does not
    match, and a database with no account for the email.  When email and
    password are both supplied, login against the first answers 401
    (Unauthorized); and for any email and password string the two logins
    answer with the very same response, hence the same error kind. *)
Theorem login_wrong_password_same_as_unknown_email `{Platform} :
  forall (db1 db2 : Db) (e p : string) (user : User) (now : Z),
    User_findOne_email db1 e = Some user ->
    bcrypt_compare p (u_password user) = false ->
    (forall u, In u (users db2) -> u_email u <> e) ->
    let login1 := post_auth_login db1 (mkCredentials (Some e) (Some p)) now in
    let login2 := post_auth_login db2 (mkCredentials (Some e) (Some p)) now in
    (e <> "" -> p <> "" ->
     snd login1 = mkResponse 401 (Message "Invalid credentials") /\
     error_kind (snd login1) = Some Unauthorized) /\
    snd login1 = snd login2 /\
    error_kind (snd login1) = error_kind (snd login2).
Proof.
  intros db1 db2 e p user now Hfound Hwrong Hmissing login1 login2.
  assert (Hnone : User_findOne_email db2 e = None)
    by now apply User_findOne_email_none.
  assert (Hsame : snd login1 = snd login2).
  { unfold login1, login2, post_auth_login. cbn [email password].
    destruct (falsy (Some e) || falsy (Some p)); [reflexivity |].
    rewrite Hfound, Hnone, Hwrong. reflexivity. }
  split; [| split; [exact Hsame | now rewrite Hsame]].
  intros He Hp.
  assert (H1 : snd login1 = mkResponse 401 (Message "Invalid credentials")).
  { unfold login1, post_auth_login. cbn [email password].
    rewrite (falsy_some _ He), (falsy_some _ Hp). cbn [orb].
    rewrite Hfound, Hwrong. reflexivity. }
  rewrite H1. split; reflexivity.
Qed.

Lemma login_wrong_password_same_as_unknown_email_witness :
  snd (@post_auth_login demo_platform demo_db
         (mkCredentials (Some "alice@example.org") (Some "guess")) 900)
  = mkResponse 401 (Message "Invalid credentials")
  /\
  snd (@post_auth_login demo_platform demo_db
         (mkCredentials (Some "bob@example.org") (Some "guess")) 900)
  = snd (@post_auth_login demo_platform solo_db
           (mkCredentials (Some "bob@example.org") (Some "guess")) 900).
Proof.
  split.
  - pose proof (@login_wrong_password_same_as_unknown_email demo_platform
                  demo_db empty_db "alice@example.org" "guess"
                  (mkUser "a1" "alice@example.org" "$2a$12$wonderland" 10) 900) as Hw.
    cbv zeta in Hw.
    destruct Hw as [Hw _]; [reflexivity | reflexivity | intros u [] |].
    apply Hw; discriminate.
  - pose proof (@login_wrong_password_same_as_unknown_email demo_platform
                  demo_db solo_db "bob@example.org" "guess"
                  (mkUser "b2" "bob@example.org" "$2a$12$builder" 20) 900) as Hw.
    cbv zeta in Hw.
    destruct Hw as (_ & Hw & _); [reflexivity | reflexivity | |exact Hw].
    simpl. intros u [<- | []]. discriminate.
Defined.

Lemma js_falsy_string (x : field) : js_falsy (option_map JsString x) = falsy x.
Proof. destruct x; reflexivity. Qed.

(** On a password that is a string the handler on the raw body is
    [post_auth_login]. *)
Lemma post_auth_login_raw_string `{Platform} (db : Db) (b : Credentials) (now : Z) :
  post_auth_login_raw db (mkJsonCredentials (email b) (option_map JsString (password b))) now
  = post_auth_login db b now.
Proof.
  unfold post_auth_login_raw, post_auth_login. cbn [json_email json_password].
  rewrite js_falsy_string.
  destruct (email b) as [e|]; [| reflexivity].
  destruct (password b) as [p|]; cbn [option_map].
  - destruct (_ || _); [reflexivity |].
    destruct (User_findOne_email db e); reflexivity.
  - cbn [falsy]. now rewrite orb_true_r.
Qed.

(** C8, on the code.  With a password that is not a string but passes
    [!password] (a non-zero number, [true], an object), login for an email
    that has an account answers 500 ['Login failed'], because
    [bcrypt.compare] throws, while login for an email without account
    answers 401 ['Invalid credentials']: the two error kinds differ, and
    tell whether the email is registered. *)
Theorem login_non_string_password_reveals_account `{Platform} :
  forall (db1 db2 : Db) (e : string) (v : JsValue) (user : User) (now : Z),
    e <> "" ->
    js_falsy (Some v) = false ->
    (forall p, v <> JsString p) ->
    User_findOne_email db1 e = Some user ->
    (forall u, In u (users db2) -> u_email u <> e) ->
    let login1 := post_auth_login_raw db1 (mkJsonCredentials (Some e) (Some v)) now in
    let login2 := post_auth_login_raw db2 (mkJsonCredentials (Some e) (Some v)) now in
    login1 = (db1, mkResponse 500 (Message "Login failed")) /\
    login2 = (db2, mkResponse 401 (Message "Invalid credentials")) /\
    error_kind (snd login1) = Some RepositoryFailure /\
    error_kind (snd login2) = Some Unauthorized /\
    error_kind (snd login1) <> error_kind (snd login2).
Proof.
  intros db1 db2 e v user now He Hv Hnot Hfound Hmissing login1 login2.
  assert (H1 : login1 = (db1, mkResponse 500 (Message "Login failed"))).
  { unfold login1, post_auth_login_raw. cbn [json_email json_password].
    rewrite (falsy_some _ He), Hv. cbn [orb]. rewrite Hfound.
    destruct v as [p | n | b | |]; try reflexivity.
    destruct (Hnot p eq_refl). }
  assert (H2 : login2 = (db2, mkResponse 401 (Message "Invalid credentials"))).
  { unfold login2, post_auth_login_raw. cbn [json_email json_password].
    rewrite (falsy_some _ He), Hv. cbn [orb].
    now rewrite (User_findOne_email_none db2 e Hmissing). }
  rewrite H1, H2. repeat split; simpl; discriminate.
Qed.

Lemma login_non_string_password_reveals_account_witness :
  @post_auth_login_raw demo_platform demo_db
    (mkJsonCredentials (Some "alice@example.org") (Some (JsNumber 123))) 900
  = (demo_db, mkResponse 500 (Message "Login failed"))
  /\
  @post_auth_login_raw demo_platform empty_db
    (mkJsonCredentials (Some "alice@example.org") (Some (JsNumber 123))) 900
  = (empty_db, mkResponse 401 (Message "Invalid credentials")).
Proof.
  pose proof (@login_non_string_password_reveals_account demo_platform
                demo_db empty_db "alice@example.org" (JsNumber 123)
                (mkUser "a1" "alice@example.org" "$2a$12$wonderland" 10) 900) as Hw.
  cbv zeta in Hw.
  destruct Hw as (H500 & H401 & _);
    [discriminate | reflexivity | discriminate | reflexivity | intros u [] |].
  split; [exact H500 | exact H401].
Defined.

(** ** Submission aggregation *)

Lemma populate_ids (db : Db) (l : list Feedback) :
  map pf_id (map (populate db) l) = map fb_id l.
Proof. rewrite map_map. reflexivity. Qed.

(** The second filter of the handler, over the batch fetched for all of
    the owner's snippets, selects what a query for the one snippet would. *)
Lemma group_of_batch (db : Db) (ids : list ObjectId) (sid : ObjectId)
    (l : list Feedback) :
  In sid ids ->
  filter (fun f => String.eqb (pf_codeSnippetId f) sid)
    (map (populate db) (filter (snippet_in ids) l))
  = map (populate db) (filter (fun f => String.eqb (fb_codeSnippetId f) sid) l).
Proof.
  intros Hsid. induction l as [|f l IH]; [reflexivity |].
  cbn [filter].
  destruct (String.eqb (fb_codeSnippetId f) sid) eqn:E.
  - assert (snippet_in ids f = true) as ->.
    { apply existsb_exists. exists sid. split; assumption. }
    cbn [map filter populate pf_codeSnippetId]. rewrite E.
    now rewrite <- IH.
  - destruct (snippet_in ids f).
    + cbn [map filter populate pf_codeSnippetId]. now rewrite E.
    + exact IH.
Qed.

Lemma NoDup_map_filter {A B : Type} (g : A -> B) (p : A -> bool) (l : list A) :
  NoDup (map g l) -> NoDup (map g (filter p l)).
Proof.
  induction l as [|x l IH]; simpl; intros H; [constructor |].
  apply NoDup_cons_iff in H as [Hx Hl].
  destruct (p x); simpl; auto.
  constructor; auto.
  intros Hin. apply Hx.
  apply in_map_iff in Hin as [y [Hy Hin]].
  apply filter_In in Hin as [Hin _].
  apply in_map_iff. eauto.
Qed.

Lemma NoDup_map_injective {A B : Type} (g : A -> B) (l : list A) (x y : A) :
  NoDup (map g l) -> In x l -> In y l -> g x = g y -> x = y.
Proof.
  induction l as [|z l IH]; simpl; intros H Hx Hy Heq; [contradiction |].
  apply NoDup_cons_iff in H as [Hz Hl].
  destruct Hx as [-> | Hx], Hy as [-> | Hy]; auto.
  - exfalso. apply Hz. rewrite Heq. now apply in_map.
  - exfalso. apply Hz. rewrite <- Heq. now apply in_map.
Qed.

Lemma get_code_my_submissions_eq (db : Db) (user : AuthUser) :
  get_code_my_submissions db user
  = (db, mkResponse 200 (Submissions (submissions_of db (au_id user)))).
Proof.
  unfold get_code_my_submissions, submissions_of.
  do 3 f_equal.
  apply map_ext_in. intros s Hs. f_equal.
  apply group_of_batch. now apply in_map.
Qed.

(** C5.  [GET /api/code/my-submissions] answers 200 with a list in which
    - the snippets are exactly the stored snippets of the requester, each
      of them once (snippet ids being unique in the collection);
    - the [feedbacks] of an entry are exactly the stored feedback entries
      whose [codeSnippetId] is the entry's snippet id, reviewer populated,
      each as often as it is stored: none under another snippet, none
      dropped, and with unique feedback ids none twice;
    - a feedback entry sits under one snippet only;
    - an entry whose snippet has no feedback carries the empty list. *)
Theorem my_submissions_join :
  forall (db : Db) (user : AuthUser),
    unique_snippet_ids db ->
    unique_feedback_ids db ->
    exists result,
      get_code_my_submissions db user = (db, mkResponse 200 (Submissions result)) /\
      (forall s, In s (map swf_snippet result) <->
                 In s (snippets db) /\ cs_userId s = au_id user) /\
      NoDup (map cs_id (map swf_snippet result)) /\
      (forall entry, In entry result ->
         swf_feedbacks entry
         = map (populate db)
             (filter (fun f => String.eqb (fb_codeSnippetId f) (cs_id (swf_snippet entry)))
                (feedbacks db))) /\
      (forall entry f, In entry result ->
         (In (populate db f) (swf_feedbacks entry) ->
          fb_codeSnippetId f = cs_id (swf_snippet entry)) /\
         (In f (feedbacks db) -> fb_codeSnippetId f = cs_id (swf_snippet entry) ->
          In (populate db f) (swf_feedbacks entry))) /\
      (forall entry, In entry result -> NoDup (map pf_id (swf_feedbacks entry))) /\
      (forall e1 e2 pf, In e1 result -> In e2 result ->
         In pf (swf_feedbacks e1) -> In pf (swf_feedbacks e2) -> e1 = e2) /\
      (forall entry, In entry result ->
         (forall f, In f (feedbacks db) -> fb_codeSnippetId f <> cs_id (swf_snippet entry)) ->
         swf_feedbacks entry = []).
Proof.
  intros db user Hsn Hfb.
  exists (submissions_of db (au_id user)).
  assert (Hsnip : map swf_snippet (submissions_of db (au_id user))
                  = filter (owned_by (au_id user)) (snippets db)).
  { unfold submissions_of. rewrite map_map. cbn [swf_snippet]. apply map_id. }
  assert (Hgroup : forall entry, In entry (submissions_of db (au_id user)) ->
            In (swf_snippet entry) (snippets db) /\
            swf_feedbacks entry
            = map (populate db)
                (filter (fun f => String.eqb (fb_codeSnippetId f) (cs_id (swf_snippet entry)))
                   (feedbacks db))).
  { intros entry Hin. unfold submissions_of in Hin.
    apply in_map_iff in Hin as [s [<- Hs]].
    apply filter_In in Hs as [Hs _]. split; [exact Hs | reflexivity]. }
  assert (Hmem : forall entry pf, In entry (submissions_of db (au_id user)) ->
            In pf (swf_feedbacks entry) -> pf_codeSnippetId pf = cs_id (swf_snippet entry)).
  { intros entry pf Hin Hpf. rewrite (proj2 (Hgroup entry Hin)) in Hpf.
    apply in_map_iff in Hpf as [f [<- Hf]].
    apply filter_In in Hf as [_ Hf]. now apply String.eqb_eq in Hf. }
  split; [apply get_code_my_submissions_eq |].
  split; [| split; [| split; [| split; [| split; [| split]]]]].
  - intros s. rewrite Hsnip, filter_In. unfold owned_by.
    now rewrite String.eqb_eq.
  - rewrite Hsnip. now apply NoDup_map_filter.
  - intros entry Hin. exact (proj2 (Hgroup entry Hin)).
  - intros entry f Hin. split.
    + intros Hpf. exact (Hmem entry _ Hin Hpf).
    + intros Hf Heq. rewrite (proj2 (Hgroup entry Hin)).
      apply in_map. apply filter_In. split; [exact Hf | now apply String.eqb_eq].
  - intros entry Hin. rewrite (proj2 (Hgroup entry Hin)), populate_ids.
    now apply NoDup_map_filter.
  - intros e1 e2 pf H1 H2 Hp1 Hp2.
    assert (Hid : cs_id (swf_snippet e1) = cs_id (swf_snippet e2)).
    { rewrite <- (Hmem e1 pf H1 Hp1). exact (Hmem e2 pf H2 Hp2). }
    assert (Hs : swf_snippet e1 = swf_snippet e2).
    { apply (NoDup_map_injective cs_id (snippets db)); auto;
        [exact (proj1 (Hgroup e1 H1)) | exact (proj1 (Hgroup e2 H2))]. }
    pose proof (proj2 (Hgroup e1 H1)) as G1.
    pose proof (proj2 (Hgroup e2 H2)) as G2.
    rewrite <- Hs in G2. rewrite <- G1 in G2.
    destruct e1, e2. cbn [swf_snippet swf_feedbacks] in Hs, G2. congruence.
  - intros entry Hin Hnone. rewrite (proj2 (Hgroup entry Hin)).
    destruct (filter _ (feedbacks db)) as [|f l] eqn:E; [reflexivity | exfalso].
    assert (In f (filter (fun f => String.eqb (fb_codeSnippetId f)
                                     (cs_id (swf_snippet entry))) (feedbacks db))) as Hf
        by (rewrite E; now left).
    apply filter_In in Hf as [Hf Heq]. apply String.eqb_eq in Heq.
    exact (Hnone f Hf Heq).
Qed.

Lemma my_submissions_join_witness :
  exists result,
    get_code_my_submissions demo_db alice
    = (demo_db, mkResponse 200 (Submissions result)) /\
    NoDup (map cs_id (map swf_snippet result)) /\
    (forall entry, In entry result -> NoDup (map pf_id (swf_feedbacks entry))).
Proof.
  assert (Hs : unique_snippet_ids demo_db).
  { unfold unique_snippet_ids. simpl.
    repeat constructor; simpl; intuition discriminate. }
  assert (Hf : unique_feedback_ids demo_db).
  { unfold unique_feedback_ids. simpl.
    repeat constructor; simpl; intuition discriminate. }
  destruct (my_submissions_join demo_db alice Hs Hf)
    as (result & Heq & _ & Hnodup & _ & _ & Hgroups & _).
  exists result. auto.
Defined.

(** Alice's submissions in [demo_db]: her two snippets in stored order,
    the first with bob's two reviews, the second with none. *)
Example my_submissions_demo :
  snd (get_code_my_submissions demo_db alice)
  = mkResponse 200
      (Submissions
         [ mkSnippetWithFeedback (mkCodeSnippet "s1" "print(1)" "python" "a1" 100)
             [ mkPopulatedFeedback "f1" "s1" (Some ("b2", "bob@example.org")) "looks fine" 400;
               mkPopulatedFeedback "f3" "s1" (Some ("b2", "bob@example.org")) "add a test" 600 ];
           mkSnippetWithFeedback (mkCodeSnippet "s3" "puts 3" "ruby" "a1" 300) [] ]).
Proof. reflexivity. Qed.

(** ** Order of the listings *)

Lemma StronglySorted_filter {A : Type} (R : A -> A -> Prop) (p : A -> bool) (l : list A) :
  StronglySorted R l -> StronglySorted R (filter p l).
Proof.
  induction 1 as [|x l Hl IH Hx]; simpl; [constructor |].
  destruct (p x); [| exact IH].
  constructor; [exact IH |].
  rewrite Forall_forall in *. intros y Hy.
  apply filter_In in Hy as [Hy _]. auto.
Qed.

Lemma insert_createdAt_desc_perm (c : Code) (l : list Code) :
  Permutation (insert_createdAt_desc c l) (c :: l).
Proof.
  induction l as [|d l IH]; simpl; [reflexivity |].
  destruct (c_createdAt c <? c_createdAt d); [| reflexivity].
  rewrite IH. apply perm_swap.
Qed.

Lemma sort_createdAt_desc_perm (l : list Code) :
  Permutation (sort_createdAt_desc l) l.
Proof.
  induction l as [|c l IH]; simpl; [reflexivity |].
  rewrite insert_createdAt_desc_perm. now constructor.
Qed.

Lemma insert_createdAt_desc_sorted (c : Code) (l : list Code) :
  StronglySorted code_created_no_earlier l ->
  StronglySorted code_created_no_earlier (insert_createdAt_desc c l).
Proof.
  induction 1 as [|d l Hl IH Hd]; simpl.
  - repeat constructor.
  - destruct (Z.ltb_spec (c_createdAt c) (c_createdAt d)) as [Hlt | Hge].
    + constructor; [exact IH |].
      rewrite Forall_forall in *. intros y Hy.
      apply (Permutation_in _ (insert_createdAt_desc_perm c l)) in Hy.
      destruct Hy as [<- | Hy]; [unfold code_created_no_earlier; lia | auto].
    + constructor; [now constructor |].
      constructor; [exact Hge |].
      rewrite Forall_forall in *. intros y Hy.
      specialize (Hd y Hy). unfold code_created_no_earlier in *. lia.
Qed.

Lemma sort_createdAt_desc_sorted (l : list Code) :
  StronglySorted code_created_no_earlier (sort_createdAt_desc l).
Proof.
  induction l as [|c l IH]; simpl; [constructor |].
  now apply insert_createdAt_desc_sorted.
Qed.

(** C6, as the code has it.  [GET /api/code/my-submissions] lists the
    requester's snippets in the order the collection stores them, so with
    a collection stored by creation date, earliest first.  The router's
    [GET /mine] lists the requester's [Code] documents by creation date,
    latest first. *)
Theorem listing_orders :
  forall (db : Db) (user : AuthUser),
    (exists result,
       get_code_my_submissions db user = (db, mkResponse 200 (Submissions result)) /\
       map swf_snippet result = filter (owned_by (au_id user)) (snippets db) /\
       (StronglySorted created_no_later (snippets db) ->
        StronglySorted created_no_later (map swf_snippet result)))
    /\
    (exists mine,
       router_get_mine db (au_id user) = (db, mkResponse 200 (Codes mine)) /\
       Permutation mine
         (filter (fun c => String.eqb (c_user c) (au_id user)) (codes db)) /\
       StronglySorted code_created_no_earlier mine).
Proof.
  intros db user. split.
  - exists (submissions_of db (au_id user)).
    assert (Hsnip : map swf_snippet (submissions_of db (au_id user))
                    = filter (owned_by (au_id user)) (snippets db)).
    { unfold submissions_of. rewrite map_map. cbn [swf_snippet]. apply map_id. }
    split; [apply get_code_my_submissions_eq | split; [exact Hsnip |]].
    intros Hsorted. rewrite Hsnip. now apply StronglySorted_filter.
  - eexists. split; [reflexivity | split].
    + apply sort_createdAt_desc_perm.
    + apply sort_createdAt_desc_sorted.
Qed.

Lemma listing_orders_witness :
  exists result,
    get_code_my_submissions demo_db alice
    = (demo_db, mkResponse 200 (Submissions result)) /\
    StronglySorted created_no_later (map swf_snippet result).
Proof.
  destruct (listing_orders demo_db alice) as [(result & Heq & _ & Hsorted) _].
  exists result. split; [exact Heq |].
  apply Hsorted. simpl.
  repeat constructor; unfold created_no_later; simpl; lia.
Defined.

(** C6, as stated, fails on the router: alice's [Code] documents are
    stored earliest first, and [GET /mine] answers with the later one
    first, a list that is not in creation order. *)
Lemma mine_lists_latest_first :
  filter (fun c => String.eqb (c_user c) "a1") (codes demo_db)
  = [ mkCode "k1" "a1" (Some "print(1)") 100 []; mkCode "k2" "a1" (Some "print(2)") 200 [] ]
  /\
  router_get_mine demo_db "a1"
  = (demo_db,
     mkResponse 200
       (Codes [ mkCode "k2" "a1" (Some "print(2)") 200 [];
                mkCode "k1" "a1" (Some "print(1)") 100 [] ]))
  /\
  ~ (forall mine,
       router_get_mine demo_db "a1" = (demo_db, mkResponse 200 (Codes mine)) ->
       StronglySorted code_created_no_later mine).
Proof.
  split; [reflexivity | split; [reflexivity |]].
  intros H. specialize (H _ eq_refl).
  apply StronglySorted_inv in H as [_ H].
  apply Forall_inv in H. unfold code_created_no_later in H. simpl in H. lia.
Qed.

(** ** The self-review invariant *)

Lemma User_create_keeps (db db' : Db) (u : User) :
  User_create db u = Some db' ->
  snippets db' = snippets db /\ feedbacks db' = feedbacks db.
Proof.
  unfold User_create. destruct (existsb _ _); [discriminate |].
  intros [= <-]. split; reflexivity.
Qed.

Lemma post_auth_register_keeps `{Platform} (db : Db) (b : Credentials)
    (newId : ObjectId) (salt : string) (now : Z) :
  snippets (fst (post_auth_register db b newId salt now)) = snippets db /\
  feedbacks (fst (post_auth_register db b newId salt now)) = feedbacks db.
Proof.
  unfold post_auth_register.
  destruct (email b) as [e|]; [| now split].
  destruct (password b) as [p|]; [| now split].
  destruct (_ || _); [now split |].
  destruct (User_findOne_email db e); [now split |].
  destruct (User_create db _) as [db'|] eqn:E; [| now split].
  exact (User_create_keeps _ _ _ E).
Qed.

Lemma post_auth_login_keeps `{Platform} (db : Db) (b : Credentials) (now : Z) :
  fst (post_auth_login db b now) = db.
Proof.
  unfold post_auth_login.
  destruct (email b) as [e|]; [| reflexivity].
  destruct (password b) as [p|]; [| reflexivity].
  destruct (_ || _); [reflexivity |].
  destruct (User_findOne_email db e); [| reflexivity].
  destruct (negb _); reflexivity.
Qed.

Lemma post_auth_register_effect `{Platform} (db : Db) (b : Credentials)
    (newId : ObjectId) (salt : string) (now : Z) :
  effect db (fst (post_auth_register db b newId salt now)).
Proof.
  destruct (post_auth_register_keeps db b newId salt now). now apply eff_none.
Qed.

Lemma post_auth_login_effect `{Platform} (db : Db) (b : Credentials) (now : Z) :
  effect db (fst (post_auth_login db b now)).
Proof.
  rewrite post_auth_login_keeps. now apply eff_none.
Qed.

Lemma post_code_effect (db : Db) (user : AuthUser) (b : CodeBody)
    (newId : ObjectId) (now : Z) :
  effect db (fst (post_code db user b newId now)).
Proof.
  destruct (post_code_db db user b newId now) as [-> | (c & _ & Hc & Hfresh & ->)].
  - now apply eff_none.
  - eapply eff_snippet; [| | reflexivity | reflexivity]; [exact Hc | exact Hfresh].
Qed.

Lemma post_feedback_effect (db : Db) (user : AuthUser) (b : FeedbackBody)
    (newId : ObjectId) (now : Z) :
  effect db (fst (post_feedback db user b newId now)).
Proof.
  unfold post_feedback.
  destruct (codeSnippetId b) as [sid|]; [| now apply eff_none].
  destruct (feedbackText b) as [text|]; [| now apply eff_none].
  destruct (falsy (Some sid) || falsy (Some text)); [now apply eff_none |].
  destruct (CodeSnippet_findById db sid) as [snippet|] eqn:Efind; [| now apply eff_none].
  destruct (String.eqb (cs_userId snippet) (au_id user)) eqn:Eown; [now apply eff_none |].
  unfold Feedback_create.
  destruct (existsb _ _); [now apply eff_none |].
  apply (eff_feedback _ _ (mkFeedback newId sid (au_id user) text now) snippet);
    cbn [fb_codeSnippetId fb_reviewerId fst]; auto.
  now apply String.eqb_neq.
Qed.

Lemma protected_effect `{Platform} (db : Db) (h : AuthHeader) (now : Z)
    (handler : AuthUser -> Db * Response) :
  (forall user, effect db (fst (handler user))) ->
  effect db (fst (protected db h now handler)).
Proof.
  intros Hh. unfold protected.
  destruct (authenticate db h now); [now apply eff_none | apply Hh].
Qed.

Lemma handle_effect `{Platform} (db : Db) (req : Request) (now : Z) :
  effect db (fst (handle db req now)).
Proof.
  destruct req; cbn [handle].
  - apply post_auth_register_effect.
  - apply post_auth_login_effect.
  - apply protected_effect. intros user. apply post_code_effect.
  - apply protected_effect. intros user. unfold get_code_random.
    destruct (_ =? 0); now apply eff_none.
  - apply protected_effect. intros user. now apply eff_none.
  - apply protected_effect. intros user. apply post_feedback_effect.
  - apply protected_effect. intros user. now apply eff_none.
  - unfold router_post, Code_save. destruct (existsb _ _); now apply eff_none.
  - unfold router_get_random.
    destruct (_ =? 0); [now apply eff_none |].
    destruct (nth_error _ _); now apply eff_none.
  - now apply eff_none.
Qed.

Lemma effect_consistent (db db' : Db) :
  effect db db' -> consistent db -> consistent db'.
Proof.
  intros Heff (Huniq & Hrefs & Hself).
  unfold consistent, unique_snippet_ids, feedback_refs, no_self_review in *.
  destruct Heff as [Hs Hf | s _ Hfresh Hs Hf | f s Hfind Hown Hs Hf];
    rewrite Hs, Hf.
  - auto.
  - split; [| split].
    + rewrite map_app. simpl.
      apply NoDup_app; [exact Huniq | repeat constructor; simpl; tauto |].
      intros x Hx [<- | []].
      apply in_map_iff in Hx as [t [Heq Ht]]. exact (Hfresh t Ht Heq).
    + intros f Hin. destruct (Hrefs f Hin) as [t [Ht Heq]].
      exists t. split; [apply in_or_app; now left | exact Heq].
    + intros f t Hf_in Ht Heq.
      apply in_app_or in Ht as [Ht | [<- | []]]; [now apply Hself |].
      exfalso. destruct (Hrefs f Hf_in) as [t [Ht Heq']].
      apply (Hfresh t Ht). congruence.
  - apply CodeSnippet_findById_some in Hfind as [Hs_in Hs_id].
    split; [exact Huniq | split].
    + intros g Hg. apply in_app_or in Hg as [Hg | [<- | []]]; [now apply Hrefs |].
      exists s. auto.
    + intros g t Hg Ht Heq.
      apply in_app_or in Hg as [Hg | [<- | []]]; [now apply Hself |].
      assert (t = s) as ->; [| exact Hown].
      apply (NoDup_map_injective cs_id (snippets db)); auto. congruence.
Qed.

Lemma empty_db_consistent : consistent empty_db.
Proof.
  repeat split.
  - constructor.
  - intros f [].
  - intros f s [].
Qed.

Lemma reachable_consistent `{Platform} (db : Db) : reachable db -> consistent db.
Proof.
  induction 1 as [|db req now Hreach IH].
  - apply empty_db_consistent.
  - eapply effect_consistent; [apply handle_effect | exact IH].
Qed.

Lemma reachable_serve `{Platform} (reqs : list (Request * Z)) (db : Db) :
  reachable db -> reachable (serve db reqs).
Proof.
  revert db. induction reqs as [|[req now] reqs IH]; intros db Hdb; simpl.
  - exact Hdb.
  - apply IH. now apply reach_step.
Qed.

Lemma protected_feedbacks `{Platform} (db : Db) (h : AuthHeader) (now : Z)
    (handler : AuthUser -> Db * Response) :
  (forall user, feedbacks (fst (handler user)) = feedbacks db) ->
  feedbacks (fst (protected db h now handler)) = feedbacks db.
Proof.
  intros Hh. unfold protected.
  destruct (authenticate db h now); [reflexivity | apply Hh].
Qed.

(** Only [POST /api/feedback] touches the feedback collection. *)
Lemma handle_feedbacks `{Platform} (db : Db) (req : Request) (now : Z) :
  feedbacks (fst (handle db req now)) = feedbacks db \/
  exists h b newId f s,
    req = PostFeedback h b newId /\
    feedbacks (fst (handle db req now)) = feedbacks db ++ [f] /\
    CodeSnippet_findById db (fb_codeSnippetId f) = Some s /\
    cs_userId s <> fb_reviewerId f.
Proof.
  destruct req as [b newId salt | b | h b newId | h d | h | h b newId | h
                  | uid c newId | uid d | uid]; cbn [handle].
  - left. apply post_auth_register_keeps.
  - left. now rewrite post_auth_login_keeps.
  - left. apply protected_feedbacks. intros user.
    destruct (post_code_db db user b newId now) as [-> | (c & _ & _ & _ & ->)];
      reflexivity.
  - left. apply protected_feedbacks. intros user. unfold get_code_random.
    destruct (_ =? 0); reflexivity.
  - left. apply protected_feedbacks. intros user. reflexivity.
  - unfold protected. destruct (authenticate db h now) as [r | user]; [now left |].
    destruct (post_feedback_effect db user b newId now)
      as [_ Hf | s _ _ _ Hf | f s Hfind Hown _ Hf]; [now left | now left | right].
    exists h, b, newId, f, s. auto.
  - left. apply protected_feedbacks. intros user. reflexivity.
  - left. unfold router_post, Code_save. destruct (existsb _ _); reflexivity.
  - left. unfold router_get_random.
    destruct (_ =? 0); [reflexivity |].
    destruct (nth_error _ _); reflexivity.
  - left. reflexivity.
Qed.

(** C2.  In every database the server can reach from the empty one, every
    stored feedback entry references a stored snippet, and the reviewer of
    the entry is not the owner of that snippet.  A request changes the
    feedback collection only by appending one entry, and then it is a
    [POST /api/feedback] whose snippet was found and is not the
    reviewer's. *)
Theorem feedback_never_by_owner `{Platform} :
  forall db : Db,
    reachable db ->
    (forall f, In f (feedbacks db) ->
       exists s, CodeSnippet_findById db (fb_codeSnippetId f) = Some s /\
                 cs_userId s <> fb_reviewerId f) /\
    no_self_review db /\
    (forall req now,
       feedbacks (fst (handle db req now)) = feedbacks db \/
       exists h b newId f s,
         req = PostFeedback h b newId /\
         feedbacks (fst (handle db req now)) = feedbacks db ++ [f] /\
         CodeSnippet_findById db (fb_codeSnippetId f) = Some s /\
         cs_userId s <> fb_reviewerId f).
Proof.
  intros db Hreach.
  destruct (reachable_consistent db Hreach) as (Huniq & Hrefs & Hself).
  split; [| split; [exact Hself |]].
  - intros f Hf. destruct (Hrefs f Hf) as [s [Hs Heq]].
    destruct (CodeSnippet_findById db (fb_codeSnippetId f)) as [t|] eqn:Efind.
    + exists t. split; [reflexivity |].
      apply CodeSnippet_findById_some in Efind as [Ht Hid].
      now apply Hself.
    + exfalso.
      unfold CodeSnippet_findById in Efind.
      pose proof (find_none _ _ Efind s Hs) as Hno. cbv beta in Hno.
      apply String.eqb_neq in Hno. contradiction.
  - intros req now.
    destruct (handle_feedbacks db req now) as [Hsame | Hpost]; [now left | right].
    exact Hpost.
Qed.

Lemma feedback_never_by_owner_witness :
  feedbacks (@serve demo_platform empty_db demo_session)
  = [mkFeedback "f2" "s1" "b2" "looks fine" 6000]
  /\ no_self_review (@serve demo_platform empty_db demo_session).
Proof.
  split; [reflexivity |].
  apply (@feedback_never_by_owner demo_platform).
  apply reachable_serve. apply reach_init.
Defined.

(** The session of [demo_session], request by request: alice's review of
    her own snippet is refused, bob's is stored, and alice then sees her
    snippet with bob's review. *)
Example demo_session_responses :
  let db := @serve demo_platform empty_db demo_session in
  snd (@handle demo_platform db
         (PostFeedback (Bearer (Jwt alice_token))
            (mkFeedbackBody (Some "s1") (Some "great")) "f1") 5000)
  = mkResponse 403 (Message "You cannot review your own code")
  /\
  snd (@handle demo_platform db (GetCodeMySubmissions (Bearer (Jwt alice_token))) 7000)
  = mkResponse 200
      (Submissions
         [ mkSnippetWithFeedback (mkCodeSnippet "s1" "print(1)" "javascript" "a1" 3000)
             [ mkPopulatedFeedback "f2" "s1" (Some ("b2", "bob@example.org"))
                 "looks fine" 6000 ] ])
  /\
  snd (@handle demo_platform db (GetCodeRandom (Bearer (Jwt alice_token)) draw_top) 3601000)
  = mkResponse 401 (Message "Token expired").
Proof. repeat split. Qed.

(** Every snippet [server.js] has stored carries non-empty code. *)
Lemma reachable_snippets_have_code `{Platform} (db : Db) :
  reachable db -> forall s, In s (snippets db) -> cs_code s <> "".
Proof.
  induction 1 as [|db req now Hreach IH]; [intros s [] |].
  intros s Hs.
  destruct (handle_effect db req now) as [Hsn _ | t Ht _ Hsn _ | f t _ _ Hsn _];
    rewrite Hsn in Hs; auto.
  apply in_app_or in Hs as [Hs | [<- | []]]; auto.
Qed.

(** * Further properties of the handlers *)

(** ** The access guard *)

Lemma User_findById_some (db : Db) (id : ObjectId) (u : User) :
  User_findById db id = Some u -> In u (users db) /\ u_id u = id.
Proof.
  unfold User_findById. intros E.
  apply find_some in E as [Hin Heq]. apply String.eqb_eq in Heq. auto.
Qed.

(** What [authenticate] has established when it calls [next()]. *)
Lemma authenticate_inr `{Platform} (db : Db) (h : AuthHeader) (now : Z) (user : AuthUser) :
  authenticate db h now = inr user ->
  exists t u,
    h = Bearer (Jwt t) /\
    tk_signature t = hmac JWT_SECRET (tk_payload t) /\
    seconds now < jp_exp (tk_payload t) /\
    User_findById db (jp_id (tk_payload t)) = Some u /\
    user = mkAuthUser (u_id u) (u_email u) (u_createdAt u).
Proof.
  unfold authenticate, jwt_verify.
  destruct h as [| | [|t]]; try discriminate.
  destruct (String.eqb_spec (tk_signature t) (hmac JWT_SECRET (tk_payload t)))
    as [Hsig | _]; [| discriminate].
  destruct (Z.leb_spec (jp_exp (tk_payload t)) (seconds now)) as [_ | Hexp];
    [discriminate |].
  destruct (User_findById db (jp_id (tk_payload t))) as [u|] eqn:Eu; [| discriminate].
  intros [= <-]. exists t, u. auto.
Qed.

Lemma authenticate_inl `{Platform} (db : Db) (h : AuthHeader) (now : Z) (r : Response) :
  authenticate db h now = inl r -> status r = 401.
Proof.
  unfold authenticate.
  destruct h as [| | c]; try (intros [= <-]; reflexivity).
  destruct (jwt_verify c JWT_SECRET now) as [[|] | decoded];
    try (intros [= <-]; reflexivity).
  destruct (User_findById db (jp_id decoded)); [discriminate |].
  intros [= <-]. reflexivity.
Qed.

Lemma authenticate_stored `{Platform} (db : Db) (h : AuthHeader) (now : Z) (user : AuthUser) :
  authenticate db h now = inr user -> user_stored db (au_id user).
Proof.
  intros Hauth.
  destruct (authenticate_inr db h now user Hauth) as (t & u & _ & _ & _ & Hu & ->).
  apply User_findById_some in Hu as [Hin _].
  exists u. auto.
Qed.



(** On a token whose id is the rendering of an ObjectId, the middleware
    with the cast is [authenticate]. *)
Lemma authenticate_raw_canonical `{Platform} (db : Db) (h : AuthHeader) (now : Z) :
  (forall t, h = Bearer (Jwt t) ->
     ObjectId_cast (jp_id (tk_payload t)) = Some (jp_id (tk_payload t))) ->
  authenticate_raw db h now = authenticate db h now.
Proof.
  intros Hcanon. unfold authenticate_raw, authenticate.
  destruct h as [| | [|t]]; try reflexivity.
  specialize (Hcanon t eq_refl).
  unfold jwt_verify.
  destruct (String.eqb (tk_signature t) (hmac JWT_SECRET (tk_payload t))); [| reflexivity].
  destruct (jp_exp (tk_payload t) <=? seconds now); [reflexivity |].
  now rewrite Hcanon.
Qed.

Lemma authenticate_raw_inl `{Platform} (db : Db) (h : AuthHeader) (now : Z) (r : Response) :
  authenticate_raw db h now = inl r -> status r = 401.
Proof.
  unfold authenticate_raw.
  destruct h as [| | c]; try (intros [= <-]; reflexivity).
  destruct (jwt_verify c JWT_SECRET now) as [[|] | decoded];
    try (intros [= <-]; reflexivity).
  destruct (ObjectId_cast (jp_id decoded)) as [id|]; [| intros [= <-]; reflexivity].
  destruct (User_findById db id); [discriminate |].
  intros [= <-]. reflexivity.
Qed.

(** X2.  Every answer [authenticate] sends itself is a 401: for a missing
    header or one without the [Bearer ] prefix, for a string that is no
    token, for a token signed with another secret, for an expired token,
    for a valid token whose id is no ObjectId (the lookup throws: 'Not
    authorized'), and for a valid token whose ObjectId no stored user
    has ('User not found'). *)
Theorem authenticate_rejections `{Platform} :
  forall (db : Db) (now : Z),
    (forall h r, authenticate_raw db h now = inl r -> error_kind r = Some Unauthorized) /\
    authenticate_raw db NoHeader now
    = inl (mkResponse 401 (Message "No token provided or malformed token")) /\
    authenticate_raw db NotBearer now
    = inl (mkResponse 401 (Message "No token provided or malformed token")) /\
    authenticate_raw db (Bearer Garbled) now
    = inl (mkResponse 401 (Message "Invalid token")) /\
    (forall t, tk_signature t <> hmac JWT_SECRET (tk_payload t) ->
       authenticate_raw db (Bearer (Jwt t)) now
       = inl (mkResponse 401 (Message "Invalid token"))) /\
    (forall t, tk_signature t = hmac JWT_SECRET (tk_payload t) ->
       1000 * jp_exp (tk_payload t) <= now ->
       authenticate_raw db (Bearer (Jwt t)) now
       = inl (mkResponse 401 (Message "Token expired"))) /\
    (forall t, tk_signature t = hmac JWT_SECRET (tk_payload t) ->
       now < 1000 * jp_exp (tk_payload t) ->
       ObjectId_cast (jp_id (tk_payload t)) = None ->
       authenticate_raw db (Bearer (Jwt t)) now
       = inl (mkResponse 401 (Message "Not authorized"))) /\
    (forall t id, tk_signature t = hmac JWT_SECRET (tk_payload t) ->
       now < 1000 * jp_exp (tk_payload t) ->
       ObjectId_cast (jp_id (tk_payload t)) = Some id ->
       (forall u, In u (users db) -> u_id u <> id) ->
       authenticate_raw db (Bearer (Jwt t)) now
       = inl (mkResponse 401 (Message "User not found"))).
Proof.
  intros db now.
  assert (Hvalid : forall t,
            tk_signature t = hmac JWT_SECRET (tk_payload t) ->
            now < 1000 * jp_exp (tk_payload t) ->
            jwt_verify (Jwt t) JWT_SECRET now = inr (tk_payload t)).
  { intros t Hsig Hexp. unfold jwt_verify. rewrite Hsig, String.eqb_refl.
    apply seconds_before in Hexp.
    destruct (Z.leb_spec (jp_exp (tk_payload t)) (seconds now)); [lia | reflexivity]. }
  split; [| split; [reflexivity | split; [reflexivity | split; [reflexivity |
          split; [| split; [| split]]]]]].
  - intros h r Hr. apply authenticate_raw_inl in Hr.
    unfold error_kind. rewrite Hr. reflexivity.
  - intros t Hsig. unfold authenticate_raw, jwt_verify.
    apply String.eqb_neq in Hsig. now rewrite Hsig.
  - intros t Hsig Hexp. unfold authenticate_raw, jwt_verify.
    rewrite Hsig, String.eqb_refl.
    assert (~ seconds now < jp_exp (tk_payload t)) as Hnot
        by (rewrite <- seconds_before; lia).
    destruct (Z.leb_spec (jp_exp (tk_payload t)) (seconds now)); [reflexivity | lia].
  - intros t Hsig Hexp Hcast. unfold authenticate_raw.
    rewrite (Hvalid t Hsig Hexp). now rewrite Hcast.
  - intros t id Hsig Hexp Hcast Hnone. unfold authenticate_raw.
    rewrite (Hvalid t Hsig Hexp), Hcast.
    destruct (User_findById db id) as [u|] eqn:Eu; [| reflexivity].
    apply User_findById_some in Eu as [Hin Hid]. destruct (Hnone u Hin Hid).
Qed.

Lemma authenticate_rejections_witness :
  @authenticate_raw demo_platform hex_db
    (Bearer (Jwt (mkToken (mkJwtPayload "64a000000000000000000001" 1 3601) "forged"))) 2000
  = inl (mkResponse 401 (Message "Invalid token")) /\
  @authenticate_raw demo_platform hex_db
    (Bearer (Jwt (@jwt_sign demo_platform "64a000000000000000000001" "s3cret" one_hour 1000)))
    3601000
  = inl (mkResponse 401 (Message "Token expired")) /\
  @authenticate_raw demo_platform hex_db
    (Bearer (Jwt (@jwt_sign demo_platform "zz" "s3cret" one_hour 1000))) 2000
  = inl (mkResponse 401 (Message "Not authorized")) /\
  @authenticate_raw demo_platform hex_db
    (Bearer (Jwt (@jwt_sign demo_platform "64A0000000000000000000FF" "s3cret" one_hour 1000)))
    2000
  = inl (mkResponse 401 (Message "User not found")).
Proof.
  split; [| split; [| split]].
  - destruct (@authenticate_rejections demo_platform hex_db 2000)
      as (_ & _ & _ & _ & Hforged & _).
    apply Hforged. simpl. discriminate.
  - destruct (@authenticate_rejections demo_platform hex_db 3601000)
      as (_ & _ & _ & _ & _ & Hexpired & _).
    apply Hexpired; [reflexivity | vm_compute; discriminate].
  - destruct (@authenticate_rejections demo_platform hex_db 2000)
      as (_ & _ & _ & _ & _ & _ & Hthrows & _).
    apply Hthrows; [reflexivity | vm_compute; reflexivity | reflexivity].
  - destruct (@authenticate_rejections demo_platform hex_db 2000)
      as (_ & _ & _ & _ & _ & _ & _ & Hunknown).
    apply (Hunknown _ "64a0000000000000000000ff");
      [reflexivity | vm_compute; reflexivity | reflexivity |].
    simpl. intros u [<- | [<- | []]]; discriminate.
Defined.

(** X3.  A request to a protected route that [authenticate] rejects gets
    that 401 answer and nothing else happens: the handler does not run and
    the database is as before. *)
Theorem rejected_request_changes_nothing `{Platform} :
  forall (db : Db) (req : Request) (h : AuthHeader) (now : Z) (r : Response),
    auth_header req = Some h ->
    authenticate db h now = inl r ->
    handle db req now = (db, r) /\ status r = 401.
Proof.
  intros db req h now r Hh Hrej.
  split; [| exact (authenticate_inl db h now r Hrej)].
  destruct req; simpl in Hh; try discriminate; injection Hh as ->;
    cbn [handle]; unfold protected; now rewrite Hrej.
Qed.

Lemma rejected_request_changes_nothing_witness :
  @handle demo_platform demo_db
    (PostFeedback NoHeader (mkFeedbackBody (Some "s2") (Some "nice")) "f9") 700
  = (demo_db, mkResponse 401 (Message "No token provided or malformed token")) /\
  status (mkResponse 401 (Message "No token provided or malformed token")) = 401.
Proof.
  apply (@rejected_request_changes_nothing demo_platform demo_db
           (PostFeedback NoHeader (mkFeedbackBody (Some "s2") (Some "nice")) "f9")
           NoHeader 700);
    reflexivity.
Defined.

(** ** Registration and login *)

Lemma find_app_some {A : Type} (p : A -> bool) (l l' : list A) (x : A) :
  find p l = Some x -> find p (l ++ l') = Some x.
Proof.
  induction l as [|y l IH]; simpl; [discriminate |].
  destruct (p y); auto.
Qed.

Lemma find_app_none {A : Type} (p : A -> bool) (l l' : list A) :
  find p l = None -> find p (l ++ l') = find p l'.
Proof.
  induction l as [|y l IH]; simpl; [reflexivity |].
  destruct (p y); [discriminate | auto].
Qed.

Lemma find_exists {A : Type} (p : A -> bool) (l : list A) (x : A) :
  In x l -> p x = true -> exists y, find p l = Some y.
Proof.
  intros Hin Hp. destruct (find p l) as [y|] eqn:E; [eauto |].
  pose proof (find_none _ _ E x Hin). congruence.
Qed.

Lemma User_findOne_email_some (db : Db) (e : string) (u : User) :
  User_findOne_email db e = Some u -> In u (users db) /\ u_email u = e.
Proof.
  unfold User_findOne_email. intros E.
  apply find_some in E as [Hin Heq]. apply String.eqb_eq in Heq. auto.
Qed.

Lemma User_create_fresh (db : Db) (u : User) :
  (forall v, In v (users db) -> u_id v <> u_id u /\ u_email v <> u_email u) ->
  User_create db u = Some (mkDb (users db ++ [u]) (snippets db) (feedbacks db) (codes db)).
Proof.
  intros H. unfold User_create.
  destruct (existsb _ _) eqn:E; [exfalso | reflexivity].
  apply existsb_exists in E as [v [Hin Heq]].
  destruct (H v Hin) as [Hid Hemail].
  apply orb_true_iff in Heq as [Heq | Heq]; apply String.eqb_eq in Heq; auto.
Qed.

Lemma User_create_some (db db' : Db) (u : User) :
  User_create db u = Some db' ->
  (forall v, In v (users db) -> u_id v <> u_id u /\ u_email v <> u_email u) /\
  db' = mkDb (users db ++ [u]) (snippets db) (feedbacks db) (codes db).
Proof.
  unfold User_create. destruct (existsb _ _) eqn:E; [discriminate |].
  intros [= <-]. split; [| reflexivity].
  intros v Hin.
  assert (Hv : (String.eqb (u_id v) (u_id u) || String.eqb (u_email v) (u_email u)) = false).
  { destruct (_ || _) eqn:Ev; [| reflexivity].
    assert (existsb (fun v => String.eqb (u_id v) (u_id u)
                              || String.eqb (u_email v) (u_email u)) (users db) = true)
      by (apply existsb_exists; eauto).
    congruence. }
  apply orb_false_iff in Hv as [Hid Hemail].
  split; now apply String.eqb_neq.
Qed.

(** X4.  [POST /api/auth/register] answers 400 when the email or the
    password is absent or empty, and 409 when a stored user already has
    the email, whatever the password; in both cases nothing is stored. *)
Theorem register_refusals `{Platform} :
  forall (db : Db) (newId : ObjectId) (salt : string) (now : Z),
    (forall b,
       falsy (email b) = true \/ falsy (password b) = true ->
       post_auth_register db b newId salt now
       = (db, mkResponse 400 (Message "Email and password are required"))) /\
    (forall e p u,
       e <> "" -> p <> "" -> In u (users db) -> u_email u = e ->
       post_auth_register db (mkCredentials (Some e) (Some p)) newId salt now
       = (db, mkResponse 409 (Message "Email already registered"))).
Proof.
  intros db newId salt now. split.
  - intros b Hfalsy. unfold post_auth_register.
    destruct (email b) as [e|]; [| reflexivity].
    destruct (password b) as [p|]; [| reflexivity].
    destruct Hfalsy as [Hf | Hf]; rewrite Hf; [reflexivity |].
    now rewrite orb_true_r.
  - intros e p u He Hp Hin Hemail. unfold post_auth_register.
    cbn [email password].
    rewrite (falsy_some _ He), (falsy_some _ Hp). cbn [orb].
    destruct (find_exists (fun v => String.eqb (u_email v) e) (users db) u Hin)
      as [v Hv]; [now apply String.eqb_eq |].
    unfold User_findOne_email. now rewrite Hv.
Qed.

Lemma register_refusals_witness :
  @post_auth_register demo_platform demo_db
    (mkCredentials (Some "carol@example.org") None) "c3" "salt" 900
  = (demo_db, mkResponse 400 (Message "Email and password are required")) /\
  @post_auth_register demo_platform demo_db
    (mkCredentials (Some "bob@example.org") (Some "other")) "c3" "salt" 900
  = (demo_db, mkResponse 409 (Message "Email already registered")).
Proof.
  destruct (@register_refusals demo_platform demo_db "c3" "salt" 900) as [H400 H409].
  split.
  - apply H400. right. reflexivity.
  - apply (H409 "bob@example.org" "other"
             (mkUser "b2" "bob@example.org" "$2a$12$builder" 20));
      [discriminate | discriminate | simpl; auto | reflexivity].
Defined.

(** X5.  Registering a new email with a password, under an id no stored
    user has, appends the user with the hashed password and answers 201
    with a token for the new id, valid for an hour.  With a hash that
    [bcrypt.compare] accepts for its own password, a later login with the
    same email and password answers 200 with the same user object and a
    token for the same id; and registering the email again is refused
    with 409. *)
Theorem register_then_login `{Platform} :
  forall (db : Db) (e p : string) (newId : ObjectId) (salt : string) (now : Z),
    e <> "" -> p <> "" ->
    (forall v, In v (users db) -> u_id v <> newId /\ u_email v <> e) ->
    bcrypt_compare p (bcrypt_hash p salt) = true ->
    let user := mkUser newId e (bcrypt_hash p salt) now in
    let view := mkUserView newId e now in
    let db' := mkDb (users db ++ [user]) (snippets db) (feedbacks db) (codes db) in
    post_auth_register db (mkCredentials (Some e) (Some p)) newId salt now
    = (db', mkResponse 201 (AuthPayload (jwt_sign newId JWT_SECRET one_hour now) view)) /\
    jp_exp (tk_payload (jwt_sign newId JWT_SECRET one_hour now)) = seconds now + 3600 /\
    (forall later,
       post_auth_login db' (mkCredentials (Some e) (Some p)) later
       = (db', mkResponse 200
                 (AuthPayload (jwt_sign newId JWT_SECRET one_hour later) view))) /\
    (forall p2 id2 salt2 later,
       p2 <> "" ->
       post_auth_register db' (mkCredentials (Some e) (Some p2)) id2 salt2 later
       = (db', mkResponse 409 (Message "Email already registered"))).
Proof.
  intros db e p newId salt now He Hp Hfresh Hhash user view db'.
  assert (Hnone : User_findOne_email db e = None).
  { apply User_findOne_email_none. intros v Hv. exact (proj2 (Hfresh v Hv)). }
  assert (Hfound : User_findOne_email db' e = Some user).
  { unfold User_findOne_email in *. cbn [users db'].
    rewrite (find_app_none _ _ _ Hnone). simpl. now rewrite String.eqb_refl. }
  split; [| split; [reflexivity | split]].
  - unfold post_auth_register. cbn [email password].
    rewrite (falsy_some _ He), (falsy_some _ Hp). cbn [orb].
    rewrite Hnone. cbv zeta.
    now rewrite (User_create_fresh db (mkUser newId e (bcrypt_hash p salt) now) Hfresh).
  - intros later. unfold post_auth_login. cbn [email password].
    rewrite (falsy_some _ He), (falsy_some _ Hp). cbn [orb].
    rewrite Hfound. cbn [u_password user]. rewrite Hhash. reflexivity.
  - intros p2 id2 salt2 later Hp2. unfold post_auth_register. cbn [email password].
    rewrite (falsy_some _ He), (falsy_some _ Hp2). cbn [orb].
    now rewrite Hfound.
Qed.

Lemma register_then_login_witness :
  @post_auth_register demo_platform demo_db
    (mkCredentials (Some "carol@example.org") (Some "pw")) "c3" "salt" 9000
  = (mkDb (users demo_db ++ [mkUser "c3" "carol@example.org" "$2a$12$pw" 9000])
       (snippets demo_db) (feedbacks demo_db) (codes demo_db),
     mkResponse 201
       (AuthPayload (@jwt_sign demo_platform "c3" "s3cret" one_hour 9000)
          (mkUserView "c3" "carol@example.org" 9000))).
Proof.
  apply (@register_then_login demo_platform demo_db "carol@example.org" "pw" "c3" "salt" 9000);
    [discriminate | discriminate | | reflexivity].
  simpl. intros v [<- | [<- | []]]; split; discriminate.
Defined.

(** What a 200 answer of the login handler tells about the request. *)
Lemma post_auth_login_200 `{Platform} (db : Db) (b : Credentials) (now : Z)
    (token : Token) (view : UserView) :
  snd (post_auth_login db b now) = mkResponse 200 (AuthPayload token view) ->
  exists e p user,
    email b = Some e /\ password b = Some p /\ e <> "" /\ p <> "" /\
    User_findOne_email db e = Some user /\
    bcrypt_compare p (u_password user) = true /\
    token = jwt_sign (u_id user) JWT_SECRET one_hour now /\
    view = mkUserView (u_id user) (u_email user) (u_createdAt user).
Proof.
  unfold post_auth_login.
  destruct (email b) as [e|]; [| discriminate].
  destruct (password b) as [p|]; [| discriminate].
  destruct (falsy (Some e)) eqn:Ee; [discriminate |].
  destruct (falsy (Some p)) eqn:Ep; [discriminate |].
  cbn [orb].
  destruct (User_findOne_email db e) as [user|] eqn:Eu; [| discriminate].
  destruct (bcrypt_compare p (u_password user)) eqn:Ec; [| discriminate].
  cbn [negb snd]. intros [= <- <-].
  exists e, p, user. simpl in Ee, Ep.
  repeat split; auto; now apply String.eqb_neq.
Qed.



(** X7.  The token a successful login returns is accepted by
    [authenticate] until it expires, also after more users have
    registered, and authenticates as the user the login answered with
    (user ids being unique). *)
Theorem login_token_authenticates `{Platform} :
  forall (db db' : Db) (b : Credentials) (now later : Z)
         (token : Token) (view : UserView) (more : list User),
    snd (post_auth_login db b now) = mkResponse 200 (AuthPayload token view) ->
    NoDup (map u_id (users db)) ->
    users db' = users db ++ more ->
    later < 1000 * jp_exp (tk_payload token) ->
    authenticate db' (Bearer (Jwt token)) later
    = inr (mkAuthUser (uv_id view) (uv_email view) (uv_createdAt view)).
Proof.
  intros db db' b now later token view more Hlogin Huniq Husers Hlater.
  destruct (post_auth_login_200 db b now token view Hlogin)
    as (e & p & user & _ & _ & _ & _ & Hfound & _ & -> & ->).
  apply User_findOne_email_some in Hfound as [Hin _].
  assert (Hbyid : User_findById db' (u_id user) = Some user).
  { unfold User_findById. rewrite Husers.
    destruct (find_exists (fun u => String.eqb (u_id u) (u_id user)) (users db) user Hin)
      as [v Hv]; [apply String.eqb_refl |].
    rewrite (find_app_some _ _ _ _ Hv). f_equal.
    apply find_some in Hv as [Hv_in Hv_id]. apply String.eqb_eq in Hv_id.
    now apply (NoDup_map_injective u_id (users db)). }
  unfold authenticate. rewrite jwt_verify_own_signature.
  apply seconds_before in Hlater. cbn [jwt_sign tk_payload jp_exp] in Hlater.
  destruct (Z.leb_spec (seconds now + one_hour) (seconds later)); [lia |].
  cbn [jp_id]. now rewrite Hbyid.
Qed.

Lemma login_token_authenticates_witness :
  @authenticate demo_platform
    (mkDb (users demo_db ++ [mkUser "c3" "carol@example.org" "$2a$12$pw" 9000])
       (snippets demo_db) (feedbacks demo_db) (codes demo_db))
    (Bearer (Jwt (@jwt_sign demo_platform "a1" "s3cret" one_hour 5000))) 3604999
  = inr (mkAuthUser "a1" "alice@example.org" 10).
Proof.
  apply (@login_token_authenticates demo_platform demo_db
           (mkDb (users demo_db ++ [mkUser "c3" "carol@example.org" "$2a$12$pw" 9000])
              (snippets demo_db) (feedbacks demo_db) (codes demo_db))
           (mkCredentials (Some "alice@example.org") (Some "wonderland")) 5000 3604999
           (@jwt_sign demo_platform "a1" "s3cret" one_hour 5000)
           (mkUserView "a1" "alice@example.org" 10)
           [mkUser "c3" "carol@example.org" "$2a$12$pw" 9000]).
  - reflexivity.
  - simpl. repeat constructor; simpl; intuition discriminate.
  - reflexivity.
  - vm_compute. reflexivity.
Defined.

(** ** What a request does to the database *)

Lemma or_default_nonempty (x : field) (d : string) : d <> "" -> or_default x d <> "".
Proof.
  intros Hd. destruct x as [s|]; simpl; [| exact Hd].
  destruct (String.eqb_spec s ""); assumption.
Qed.

Lemma existsb_false_forall {A : Type} (p : A -> bool) (l : list A) :
  existsb p l = false -> forall x, In x l -> p x = false.
Proof.
  intros H x Hin. destruct (p x) eqn:E; [| reflexivity].
  assert (existsb p l = true) by (apply existsb_exists; eauto). congruence.
Qed.

Lemma post_auth_register_change `{Platform} (db : Db) (b : Credentials)
    (newId : ObjectId) (salt : string) (now : Z) :
  change db (fst (post_auth_register db b newId salt now)).
Proof.
  unfold post_auth_register.
  destruct (email b) as [e|]; [| now apply ch_none].
  destruct (password b) as [p|]; [| now apply ch_none].
  destruct (falsy (Some e)) eqn:Ee; [now apply ch_none |].
  destruct (falsy (Some p)); [now apply ch_none |]. cbn [orb].
  destruct (User_findOne_email db e); [now apply ch_none |]. cbv zeta.
  destruct (User_create db _) as [db'|] eqn:Ec; [| now apply ch_none].
  apply User_create_some in Ec as [Hfresh ->].
  eapply ch_user; [| exact Hfresh | reflexivity].
  simpl in Ee. now apply String.eqb_neq.
Qed.

Lemma post_code_change (db : Db) (user : AuthUser) (b : CodeBody)
    (newId : ObjectId) (now : Z) :
  user_stored db (au_id user) ->
  change db (fst (post_code db user b newId now)).
Proof.
  intros Hstored.
  destruct (post_code_db db user b newId now) as [-> | (c & _ & Hc & Hfresh & ->)].
  - now apply ch_none.
  - eapply ch_snippet; [| | | | reflexivity]; cbn [cs_userId cs_code cs_language cs_id]; auto.
    apply or_default_nonempty. discriminate.
Qed.

Lemma post_feedback_change (db : Db) (user : AuthUser) (b : FeedbackBody)
    (newId : ObjectId) (now : Z) :
  user_stored db (au_id user) ->
  change db (fst (post_feedback db user b newId now)).
Proof.
  intros Hstored. unfold post_feedback.
  destruct (codeSnippetId b) as [sid|]; [| now apply ch_none].
  destruct (feedbackText b) as [text|]; [| now apply ch_none].
  destruct (falsy (Some sid)) eqn:Es; [now apply ch_none |].
  destruct (falsy (Some text)) eqn:Et; [now apply ch_none |]. cbn [orb].
  destruct (CodeSnippet_findById db sid) as [snippet|] eqn:Efind; [| now apply ch_none].
  destruct (String.eqb (cs_userId snippet) (au_id user)) eqn:Eown; [now apply ch_none |].
  unfold Feedback_create. cbn [fb_id].
  destruct (existsb _ _) eqn:Ex; [now apply ch_none |].
  simpl in Es, Et.
  apply (ch_feedback _ _ (mkFeedback newId sid (au_id user) text now) snippet);
    cbn [fb_codeSnippetId fb_reviewerId fb_feedbackText fb_id fst]; auto;
    try (now apply String.eqb_neq).
  intros g Hg. apply String.eqb_neq.
  exact (existsb_false_forall _ _ Ex g Hg).
Qed.

Lemma protected_change `{Platform} (db : Db) (h : AuthHeader) (now : Z)
    (handler : AuthUser -> Db * Response) :
  (forall user, user_stored db (au_id user) -> change db (fst (handler user))) ->
  change db (fst (protected db h now handler)).
Proof.
  intros Hh. unfold protected.
  destruct (authenticate db h now) as [r | user] eqn:Ea; [now apply ch_none |].
  apply Hh. exact (authenticate_stored db h now user Ea).
Qed.

Lemma handle_change `{Platform} (db : Db) (req : Request) (now : Z) :
  change db (fst (handle db req now)).
Proof.
  destruct req as [b newId salt | b | h b newId | h d | h | h b newId | h
                  | uid c newId | uid d | uid]; cbn [handle].
  - apply post_auth_register_change.
  - rewrite post_auth_login_keeps. now apply ch_none.
  - apply protected_change. intros user Hu. now apply post_code_change.
  - apply protected_change. intros user _. unfold get_code_random.
    destruct (_ =? 0); now apply ch_none.
  - apply protected_change. intros user _. now apply ch_none.
  - apply protected_change. intros user Hu. now apply post_feedback_change.
  - apply protected_change. intros user _. now apply ch_none.
  - unfold router_post, Code_save. cbn [c_id].
    destruct (existsb _ _) eqn:Ex; [now apply ch_none |].
    apply (ch_code _ _ (mkCode newId uid c now [])); cbn [c_feedbacks c_id fst]; auto.
    intros d Hd. apply String.eqb_neq.
    exact (existsb_false_forall _ _ Ex d Hd).
  - unfold router_get_random.
    destruct (_ =? 0); [now apply ch_none |].
    destruct (nth_error _ _); now apply ch_none.
  - now apply ch_none.
Qed.

Lemma NoDup_map_snoc {A B : Type} (g : A -> B) (l : list A) (x : A) :
  NoDup (map g l) -> (forall y, In y l -> g y <> g x) -> NoDup (map g (l ++ [x])).
Proof.
  intros Hl Hfresh. rewrite map_app. simpl.
  apply NoDup_app; [exact Hl | repeat constructor; simpl; tauto |].
  intros z Hz [<- | []].
  apply in_map_iff in Hz as [y [Heq Hy]]. exact (Hfresh y Hy Heq).
Qed.

Lemma user_stored_grows (db : Db) (u : User) (id : ObjectId) :
  user_stored db id ->
  user_stored (mkDb (users db ++ [u]) (snippets db) (feedbacks db) (codes db)) id.
Proof.
  intros [v [Hv Hid]]. exists v. split; [apply in_or_app; now left | exact Hid].
Qed.

Lemma change_unique_keys (db db' : Db) :
  change db db' -> unique_keys db -> unique_keys db'.
Proof.
  intros Hch (Hu & He & Hs & Hf & Hc). unfold unique_keys.
  destruct Hch as [-> | u _ Hfresh -> | s _ _ _ Hfresh ->
                  | f s _ _ _ _ _ Hfresh -> | c _ Hfresh ->];
    cbn [users snippets feedbacks codes].
  - auto.
  - split; [| split; [| auto]].
    + apply NoDup_map_snoc; [exact Hu |]. intros y Hy. exact (proj1 (Hfresh y Hy)).
    + apply NoDup_map_snoc; [exact He |]. intros y Hy. exact (proj2 (Hfresh y Hy)).
  - split; [exact Hu | split; [exact He | split; [| auto]]].
    now apply NoDup_map_snoc.
  - split; [exact Hu | split; [exact He | split; [exact Hs | split; [| exact Hc]]]].
    now apply NoDup_map_snoc.
  - split; [exact Hu | split; [exact He | split; [exact Hs | split; [exact Hf |]]]].
    now apply NoDup_map_snoc.
Qed.

Lemma change_references_resolve (db db' : Db) :
  change db db' -> references_resolve db -> references_resolve db'.
Proof.
  intros Hch (Hown & Hrev). unfold references_resolve.
  destruct Hch as [-> | u _ _ -> | s Hstored _ _ _ ->
                  | f s Hstored Hfind _ _ _ _ -> | c _ _ ->];
    cbn [users snippets feedbacks codes].
  - auto.
  - split.
    + intros t Ht. apply user_stored_grows. now apply Hown.
    + intros g Hg. destruct (Hrev g Hg) as [Hg_rev Hg_ref].
      split; [now apply user_stored_grows | exact Hg_ref].
  - split.
    + intros t Ht.
      apply in_app_or in Ht as [Ht | [<- | []]]; [exact (Hown t Ht) | exact Hstored].
    + intros g Hg. destruct (Hrev g Hg) as [Hg_rev [t [Ht Hid]]].
      split; [exact Hg_rev |].
      exists t. split; [apply in_or_app; now left | exact Hid].
  - apply CodeSnippet_findById_some in Hfind as [Hs_in Hs_id].
    split; [exact Hown |].
    intros g Hg. apply in_app_or in Hg as [Hg | [<- | []]]; [exact (Hrev g Hg) |].
    split; [exact Hstored | exists s; auto].
  - split; [exact Hown | exact Hrev].
Qed.

Lemma change_fields_present (db db' : Db) :
  change db db' -> fields_present db -> fields_present db'.
Proof.
  intros Hch (Pu & Ps & Pf). unfold fields_present.
  destruct Hch as [-> | u Hemail _ -> | s _ Hcode Hlang _ ->
                  | f s _ _ _ Hsid Htext _ -> | c _ _ ->];
    cbn [users snippets feedbacks codes].
  - auto.
  - split; [| auto].
    intros v Hv. apply in_app_or in Hv as [Hv | [<- | []]]; auto.
  - split; [exact Pu | split; [| exact Pf]].
    intros t Ht. apply in_app_or in Ht as [Ht | [<- | []]]; auto.
  - split; [exact Pu | split; [exact Ps |]].
    intros g Hg. apply in_app_or in Hg as [Hg | [<- | []]]; auto.
  - auto.
Qed.

Lemma change_sound (db db' : Db) : change db db' -> sound db -> sound db'.
Proof.
  intros Hch (Hk & Hr & Hp).
  split; [| split].
  - exact (change_unique_keys db db' Hch Hk).
  - exact (change_references_resolve db db' Hch Hr).
  - exact (change_fields_present db db' Hch Hp).
Qed.

Lemma empty_db_sound : sound empty_db.
Proof.
  unfold sound, unique_keys, references_resolve, fields_present. simpl.
  repeat split; try constructor; contradiction.
Qed.

Lemma reachable_sound `{Platform} (db : Db) : reachable db -> sound db.
Proof.
  induction 1 as [|db req now Hreach IH].
  - apply empty_db_sound.
  - eapply change_sound; [apply handle_change | exact IH].
Qed.

Lemma demo_session_reachable :
  @reachable demo_platform (@serve demo_platform empty_db demo_session).
Proof. apply reachable_serve. apply reach_init. Qed.

(** X8.  In every database the server can reach, no two users share an id
    or an email, and no two snippets, feedback entries or [Code] documents
    share an id. *)
Theorem stored_keys_unique `{Platform} :
  forall db : Db,
    reachable db ->
    NoDup (map u_id (users db)) /\
    NoDup (map u_email (users db)) /\
    NoDup (map cs_id (snippets db)) /\
    NoDup (map fb_id (feedbacks db)) /\
    NoDup (map c_id (codes db)).
Proof.
  intros db Hreach. exact (proj1 (reachable_sound db Hreach)).
Qed.

Lemma stored_keys_unique_witness :
  NoDup (map u_email (users (@serve demo_platform empty_db demo_session))).
Proof.
  destruct (@stored_keys_unique demo_platform _ demo_session_reachable)
    as (_ & Hemail & _).
  exact Hemail.
Defined.

(** X9.  In every database the server can reach, the owner of every
    snippet is a stored user, every feedback entry references a stored
    snippet, and its reviewer is a stored user: [populate] never leaves a
    null reviewer. *)
Theorem stored_references_resolve `{Platform} :
  forall db : Db,
    reachable db ->
    (forall s, In s (snippets db) -> exists u, In u (users db) /\ u_id u = cs_userId s) /\
    (forall f, In f (feedbacks db) ->
       (exists s, In s (snippets db) /\ cs_id s = fb_codeSnippetId f) /\
       (exists u, In u (users db) /\ u_id u = fb_reviewerId f /\
                  pf_reviewer (populate db f) = Some (fb_reviewerId f, u_email u))).
Proof.
  intros db Hreach.
  destruct (reachable_sound db Hreach) as (_ & (Hown & Hrev) & _).
  split; [exact Hown |].
  intros f Hf. destruct (Hrev f Hf) as [[v [Hv Hid]] Hsnip].
  split; [exact Hsnip |].
  destruct (find_exists (fun u => String.eqb (u_id u) (fb_reviewerId f)) (users db) v Hv)
    as [u Hu]; [now apply String.eqb_eq |].
  pose proof Hu as Hu'. apply find_some in Hu' as [Hu_in Hu_id].
  apply String.eqb_eq in Hu_id.
  exists u. repeat split; auto.
  unfold populate, User_findById. cbn [pf_reviewer]. rewrite Hu. now rewrite Hu_id.
Qed.

Lemma stored_references_resolve_witness :
  exists u, In u (users (@serve demo_platform empty_db demo_session)) /\
            u_id u = "b2" /\
            pf_reviewer (populate (@serve demo_platform empty_db demo_session)
                           (mkFeedback "f2" "s1" "b2" "looks fine" 6000))
            = Some ("b2", u_email u).
Proof.
  destruct (@stored_references_resolve demo_platform _ demo_session_reachable)
    as [_ Hrev].
  apply (Hrev (mkFeedback "f2" "s1" "b2" "looks fine" 6000)).
  simpl. auto.
Defined.

(** X10.  No request removes or alters a stored document: after any
    request every collection is the old one with documents appended, and
    at most one document is appended in all. *)
Theorem requests_only_append `{Platform} :
  forall (db : Db) (req : Request) (now : Z),
    exists us ss fs cs,
      fst (handle db req now)
      = mkDb (users db ++ us) (snippets db ++ ss) (feedbacks db ++ fs) (codes db ++ cs) /\
      (List.length us + List.length ss + List.length fs + List.length cs <= 1)%nat.
Proof.
  intros db req now.
  destruct (handle_change db req now) as [-> | u _ _ -> | s _ _ _ _ ->
                                         | f s _ _ _ _ _ _ -> | c _ _ ->].
  - exists [], [], [], []. rewrite !app_nil_r. destruct db. split; [reflexivity | simpl; lia].
  - exists [u], [], [], []. rewrite !app_nil_r. split; [reflexivity | simpl; lia].
  - exists [], [s], [], []. rewrite !app_nil_r. split; [reflexivity | simpl; lia].
  - exists [], [], [f], []. rewrite !app_nil_r. split; [reflexivity | simpl; lia].
  - exists [], [], [], [c]. rewrite !app_nil_r. split; [reflexivity | simpl; lia].
Qed.

(** X11.  In every database the server can reach, every user has a
    non-empty email, every snippet non-empty code and a non-empty language
    tag, and every feedback entry a non-empty snippet id and text. *)
Theorem stored_fields_present `{Platform} :
  forall db : Db,
    reachable db ->
    (forall u, In u (users db) -> u_email u <> "") /\
    (forall s, In s (snippets db) -> cs_code s <> "" /\ cs_language s <> "") /\
    (forall f, In f (feedbacks db) -> fb_codeSnippetId f <> "" /\ fb_feedbackText f <> "").
Proof.
  intros db Hreach. exact (proj2 (proj2 (reachable_sound db Hreach))).
Qed.

Lemma stored_fields_present_witness :
  cs_code (mkCodeSnippet "s2" "puts 2" "ruby" "b2" 4000) <> "" /\
  cs_language (mkCodeSnippet "s2" "puts 2" "ruby" "b2" 4000) <> "".
Proof.
  destruct (@stored_fields_present demo_platform _ demo_session_reachable)
    as (_ & Hsnip & _).
  apply Hsnip. simpl. auto.
Defined.

(** X13.  Login, the three listing and picking routes of [server.js], the
    protected test route and the router's two [GET] routes leave the
    database exactly as it was, whatever they answer. *)
Theorem read_only_routes `{Platform} :
  forall (db : Db) (req : Request) (now : Z),
    read_only req = true -> fst (handle db req now) = db.
Proof.
  intros db req now Hro.
  destruct req; simpl in Hro; try discriminate; cbn [handle].
  - apply post_auth_login_keeps.
  - unfold protected. destruct (authenticate db h now); [reflexivity |].
    unfold get_code_random. destruct (_ =? 0); reflexivity.
  - unfold protected. destruct (authenticate db h now); reflexivity.
  - unfold protected. destruct (authenticate db h now); reflexivity.
  - unfold router_get_random.
    destruct (_ =? 0); [reflexivity |].
    destruct (nth_error _ _); reflexivity.
  - reflexivity.
Qed.

Lemma read_only_routes_witness :
  fst (@handle demo_platform demo_db (GetCodeRandom (Bearer (Jwt alice_token)) draw_top) 2000)
  = demo_db.
Proof.
  apply (@read_only_routes demo_platform). reflexivity.
Defined.

(** ** Reach of the random pick *)

Lemma mantissa_for_spec (i n : Z) :
  0 <= i < n -> n <= 2 ^ 53 ->
  0 <= mantissa_for i n < 2 ^ 53 /\
  i * 2 ^ 53 <= mantissa_for i n * n < i * 2 ^ 53 + n.
Proof.
  intros Hi Hn. unfold mantissa_for.
  set (a := i * 2 ^ 53 + n - 1).
  assert (Hpos : 0 < 2 ^ 53) by reflexivity.
  assert (Hn0 : 0 < n) by lia.
  pose proof (Z.div_mod a n ltac:(lia)) as Hdiv.
  pose proof (Z.mod_pos_bound a n Hn0) as Hmod.
  assert (Ha : 0 <= a) by (unfold a; nia).
  assert (Hq : 0 <= a / n) by (apply Z.div_pos; lia).
  assert (Hlo : i * 2 ^ 53 <= a / n * n) by (unfold a in *; nia).
  assert (Hhi : a / n * n < i * 2 ^ 53 + n) by (unfold a in *; nia).
  repeat split; try assumption.
  assert (a / n * n < n * 2 ^ 53) by nia.
  nia.
Qed.

(** With at most 2^52 documents, the product for [mantissa_for i n] lies
    far enough below [(i + 1) * 2^53] not to be rounded up to it. *)
Lemma draw_for_index (i n : Z) :
  0 <= i < n -> n <= 2 ^ 52 -> exists d : Draw, floor_random d n = i.
Proof.
  intros Hi Hn.
  assert (Hn53 : n <= 2 ^ 53) by (change (2 ^ 53) with (2 * 2 ^ 52); lia).
  destruct (mantissa_for_spec i n Hi Hn53) as [[H0 H1] [Hlo Hhi]].
  assert (Hrange : (0 <=? mantissa_for i n) && (mantissa_for i n <? 2 ^ 53) = true).
  { apply andb_true_intro. split; [now apply Z.leb_le | now apply Z.ltb_lt]. }
  exists (mkDraw (mantissa_for i n) Hrange).
  unfold floor_random. cbn [mantissa].
  set (p := mantissa_for i n * n) in *.
  assert (Hbig : p < 2 ^ 106).
  { change (2 ^ 106) with (2 ^ 53 * 2 ^ 53). change (2 ^ 52) with 4503599627370496 in Hn.
    change (2 ^ 53) with 9007199254740992 in *. nia. }
  assert (Hup : round53 p < (i + 1) * 2 ^ 53).
  { apply (round53_below p (i + 1) (2 ^ 53 - n + 1)); lia. }
  assert (Hdown : i * 2 ^ 53 <= round53 p) by (apply round53_above; lia).
  symmetry. apply (Z.div_unique_pos _ _ i (round53 p - i * 2 ^ 53)); lia.
Qed.

Lemma draw_for_element {A : Type} (l : list A) (x : A) :
  In x l -> Z.of_nat (List.length l) <= 2 ^ 52 ->
  exists d : Draw,
    nth_error l (Z.to_nat (floor_random d (Z.of_nat (List.length l)))) = Some x.
Proof.
  intros Hin Hlen.
  apply In_nth_error in Hin as [k Hk].
  assert (Hk_lt : (k < List.length l)%nat) by (apply nth_error_Some; congruence).
  destruct (draw_for_index (Z.of_nat k) (Z.of_nat (List.length l))) as [d Hd]; [lia | lia |].
  exists d. rewrite Hd, Nat2Z.id. exact Hk.
Qed.

(** X12.  No snippet is out of reach of the random pick: for every stored
    snippet that is not the requester's there is a value of
    [Math.random()] for which [GET /api/code/random], computing the index
    in double arithmetic, answers with that snippet, and likewise for the
    router's [GET /random] (with at most 2^52 candidates). *)
Theorem every_eligible_snippet_can_be_picked :
  forall (db : Db) (user : AuthUser),
    (forall s,
       In s (snippets db) -> cs_userId s <> au_id user ->
       Z.of_nat (List.length (filter (not_owned_by (au_id user)) (snippets db))) <= 2 ^ 52 ->
       exists d, get_code_random db user d = (db, mkResponse 200 (SnippetDoc (Some s)))) /\
    (forall c,
       In c (codes db) -> c_user c <> au_id user ->
       Z.of_nat (List.length
                   (filter (fun c => negb (String.eqb (c_user c) (au_id user))) (codes db)))
       <= 2 ^ 52 ->
       exists d, router_get_random db (au_id user) d
                 = (db, mkResponse 200 (CodePick (c_code c) (c_id c)))).
Proof.
  intros db user. split.
  - intros s Hin Hne Hlen.
    assert (Hs : In s (filter (not_owned_by (au_id user)) (snippets db))).
    { apply filter_In. split; [exact Hin | now apply not_owned_by_spec]. }
    destruct (draw_for_element _ s Hs Hlen) as [d Hd].
    exists d. unfold get_code_random.
    rewrite length_nonzero; [| intros Hnil; rewrite Hnil in Hs; exact Hs].
    cbv zeta. now rewrite Hd.
  - intros c Hin Hne Hlen.
    set (p := fun c => negb (String.eqb (c_user c) (au_id user))) in *.
    assert (Hc : In c (filter p (codes db))).
    { apply filter_In. split; [exact Hin |]. unfold p.
      rewrite negb_true_iff. now apply String.eqb_neq. }
    destruct (draw_for_element _ c Hc Hlen) as [d Hd].
    exists d. unfold router_get_random. fold p.
    rewrite length_nonzero; [| intros Hnil; rewrite Hnil in Hc; exact Hc].
    cbv zeta. now rewrite Hd.
Qed.

Lemma every_eligible_snippet_can_be_picked_witness :
  exists d,
    get_code_random demo_db bob d
    = (demo_db,
       mkResponse 200 (SnippetDoc (Some (mkCodeSnippet "s3" "puts 3" "ruby" "a1" 300)))).
Proof.
  destruct (every_eligible_snippet_can_be_picked demo_db bob) as [Hpick _].
  apply Hpick; [simpl; auto | simpl; discriminate | vm_compute; discriminate].
Defined.

(** ** Submitting, reviewing and listing together *)

Lemma populate_users (db db' : Db) (f : Feedback) :
  users db' = users db -> populate db' f = populate db f.
Proof. intros Hu. unfold populate, User_findById. now rewrite Hu. Qed.

Lemma populate_reviewer (db : Db) (f : Feedback) :
  user_stored db (fb_reviewerId f) ->
  exists u, In u (users db) /\
            pf_reviewer (populate db f) = Some (fb_reviewerId f, u_email u).
Proof.
  intros [v [Hv Hid]].
  destruct (find_exists (fun u => String.eqb (u_id u) (fb_reviewerId f)) (users db) v Hv)
    as [u Hu]; [now apply String.eqb_eq |].
  pose proof Hu as Hu'. apply find_some in Hu' as [Hu_in Hu_id].
  apply String.eqb_eq in Hu_id.
  exists u. split; [exact Hu_in |].
  unfold populate, User_findById. cbn [pf_reviewer]. rewrite Hu. now rewrite Hu_id.
Qed.

Lemma filter_none {A : Type} (p : A -> bool) (l : list A) :
  (forall x, In x l -> p x = false) -> filter p l = [].
Proof.
  induction l as [|x l IH]; simpl; intros H; [reflexivity |].
  rewrite (H x (or_introl eq_refl)). apply IH. intros y Hy. apply H. now right.
Qed.

Lemma submissions_of_ext (db db' : Db) (owner : ObjectId) :
  users db' = users db -> snippets db' = snippets db -> feedbacks db' = feedbacks db ->
  submissions_of db' owner = submissions_of db owner.
Proof.
  intros Hu Hs Hf. unfold submissions_of. rewrite Hs, Hf.
  apply map_ext. intros s. f_equal. apply map_ext. intros f. now apply populate_users.
Qed.

(** X14.  After a user's snippet has been stored by [POST /api/code], the
    user's [GET /api/code/my-submissions] is the listing from before with
    the new snippet appended, carrying an empty [feedbacks] list; and
    [GET /api/code/random] of any other user no longer answers 404
    but, for every draw, a snippet that is not that user's (the collection
    holding fewer than 2^53 snippets, so that the count is exact). *)
Theorem submitted_snippet_is_listed_and_offered :
  forall (db : Db) (user : AuthUser) (c : string) (lang : field)
         (newId : ObjectId) (now : Z) (old : list SnippetWithFeedback),
    c <> "" ->
    (forall t, In t (snippets db) -> cs_id t <> newId) ->
    feedback_refs db ->
    Z.of_nat (List.length (snippets db)) < 2 ^ 53 ->
    snd (get_code_my_submissions db user) = mkResponse 200 (Submissions old) ->
    let snippet := mkCodeSnippet newId c (or_default lang "javascript") (au_id user) now in
    let db' := fst (post_code db user (mkCodeBody (Some c) lang) newId now) in
    snippets db' = snippets db ++ [snippet] /\
    get_code_my_submissions db' user
    = (db', mkResponse 200 (Submissions (old ++ [mkSnippetWithFeedback snippet []]))) /\
    (forall other d,
       au_id other <> au_id user ->
       exists s, cs_userId s <> au_id other /\
                 get_code_random db' other d = (db', mkResponse 200 (SnippetDoc (Some s)))).
Proof.
  intros db user c lang newId now old Hc Hfresh Hrefs Hsafe Hold snippet db'.
  assert (Hdb' : db' = mkDb (users db) (snippets db ++ [snippet]) (feedbacks db) (codes db)).
  { unfold db', post_code. cbn [code language].
    rewrite (falsy_some _ Hc). fold snippet.
    now rewrite (CodeSnippet_create_fresh db snippet Hfresh). }
  rewrite get_code_my_submissions_eq in Hold. cbn [snd] in Hold.
  injection Hold as Hold.
  split; [now rewrite Hdb' | split].
  - rewrite get_code_my_submissions_eq. do 3 f_equal.
    rewrite <- Hold, Hdb'. unfold submissions_of. cbn [users snippets feedbacks].
    rewrite filter_app, map_app.
    assert (Hlast : filter (owned_by (au_id user)) [snippet] = [snippet]).
    { unfold snippet, owned_by. cbn [filter cs_userId]. now rewrite String.eqb_refl. }
    rewrite Hlast. cbn [map].
    apply f_equal2; [reflexivity |].
    do 2 f_equal. rewrite filter_none; [reflexivity |].
    intros f Hf. apply String.eqb_neq. intros Heq.
    destruct (Hrefs f Hf) as [t [Ht Hid]].
    apply (Hfresh t Ht). unfold snippet in Heq. cbn [cs_id] in Heq. congruence.
  - intros other d Hother.
    assert (Hin : In snippet (filter (not_owned_by (au_id other)) (snippets db'))).
    { apply filter_In. split.
      - rewrite Hdb'. cbn [snippets]. apply in_or_app. right. now left.
      - apply not_owned_by_spec. cbn [cs_userId snippet]. congruence. }
    assert (Hl : filter (not_owned_by (au_id other)) (snippets db') <> []).
    { intros Hnil. rewrite Hnil in Hin. exact Hin. }
    assert (Hcount : Z.of_nat (List.length
                                 (filter (not_owned_by (au_id other)) (snippets db')))
                     <= 2 ^ 53).
    { pose proof (filter_length_le (not_owned_by (au_id other)) (snippets db')) as Hle.
      rewrite Hdb' in *. cbn [snippets] in *.
      rewrite length_app in Hle. simpl in Hle. lia. }
    destruct (drawn_index_hits _ d Hl Hcount) as [s Hs].
    exists s. split.
    + apply nth_error_In in Hs. apply filter_In in Hs as [_ Hs].
      now apply not_owned_by_spec.
    + unfold get_code_random. rewrite (length_nonzero _ Hl). cbv zeta. now rewrite Hs.
Qed.

Lemma submitted_snippet_is_listed_and_offered_witness :
  get_code_my_submissions
    (fst (post_code solo_db alice (mkCodeBody (Some "x = 1") None) "s4" 700)) alice
  = (fst (post_code solo_db alice (mkCodeBody (Some "x = 1") None) "s4" 700),
     mkResponse 200
       (Submissions
          ([mkSnippetWithFeedback (mkCodeSnippet "s1" "print(1)" "python" "a1" 100) []]
           ++ [mkSnippetWithFeedback (mkCodeSnippet "s4" "x = 1" "javascript" "a1" 700) []]))).
Proof.
  apply (submitted_snippet_is_listed_and_offered solo_db alice "x = 1" None "s4" 700
           [mkSnippetWithFeedback (mkCodeSnippet "s1" "print(1)" "python" "a1" 100) []]).
  - discriminate.
  - simpl. intros t [<- | []]. discriminate.
  - intros f [].
  - vm_compute. reflexivity.
  - reflexivity.
Defined.

(** X15.  After a review has been stored by [POST /api/feedback], the
    snippet's owner finds, in [GET /api/code/my-submissions], the snippet
    with its earlier feedback followed by the new entry, which carries the
    reviewer's id and email and the text. *)
Theorem stored_feedback_reaches_owner :
  forall (db : Db) (reviewer owner : AuthUser) (sid text : string)
         (newId : ObjectId) (now : Z) (snippet : CodeSnippet) (u : User),
    sid <> "" -> text <> "" ->
    CodeSnippet_findById db sid = Some snippet ->
    cs_userId snippet = au_id owner ->
    au_id reviewer <> au_id owner ->
    (forall g, In g (feedbacks db) -> fb_id g <> newId) ->
    User_findById db (au_id reviewer) = Some u ->
    let db' := fst (post_feedback db reviewer (mkFeedbackBody (Some sid) (Some text)) newId now) in
    exists entries,
      get_code_my_submissions db' owner = (db', mkResponse 200 (Submissions entries)) /\
      In (mkSnippetWithFeedback snippet
            (map (populate db)
               (filter (fun f => String.eqb (fb_codeSnippetId f) sid) (feedbacks db))
             ++ [mkPopulatedFeedback newId sid (Some (au_id reviewer, u_email u)) text now]))
         entries.
Proof.
  intros db reviewer owner sid text newId now snippet u
         Hsid Htext Hfind Hown Hneq Hfresh Hu db'.
  set (feedback := mkFeedback newId sid (au_id reviewer) text now).
  assert (Hdb' : db' = mkDb (users db) (snippets db) (feedbacks db ++ [feedback]) (codes db)).
  { unfold db', post_feedback. cbn [codeSnippetId feedbackText].
    rewrite (falsy_some _ Hsid), (falsy_some _ Htext). cbn [orb].
    rewrite Hfind.
    assert (String.eqb (cs_userId snippet) (au_id reviewer) = false) as ->
        by (apply String.eqb_neq; congruence).
    fold feedback. now rewrite (Feedback_create_fresh db feedback Hfresh). }
  apply CodeSnippet_findById_some in Hfind as [Hs_in Hs_id].
  exists (submissions_of db' (au_id owner)).
  split; [apply get_code_my_submissions_eq |].
  unfold submissions_of. apply in_map_iff. exists snippet. split.
  - f_equal. rewrite Hdb'. cbn [feedbacks]. rewrite Hs_id.
    rewrite filter_app, map_app. apply f_equal2; [reflexivity |].
    assert (Hlast : filter (fun f => String.eqb (fb_codeSnippetId f) sid) [feedback]
                    = [feedback]).
    { unfold feedback. cbn [filter fb_codeSnippetId]. now rewrite String.eqb_refl. }
    rewrite Hlast. cbn [map]. f_equal.
    unfold populate, feedback.
    cbn [fb_id fb_codeSnippetId fb_reviewerId fb_feedbackText fb_createdAt].
    unfold User_findById in *. cbn [users]. rewrite Hu.
    apply find_some in Hu as [_ Hid]. apply String.eqb_eq in Hid. now rewrite Hid.
  - rewrite Hdb'. cbn [snippets]. apply filter_In. split; [exact Hs_in |].
    unfold owned_by. now apply String.eqb_eq.
Qed.

Lemma stored_feedback_reaches_owner_witness :
  exists entries,
    get_code_my_submissions
      (fst (post_feedback demo_db alice (mkFeedbackBody (Some "s2") (Some "nice")) "f9" 700))
      bob
    = (fst (post_feedback demo_db alice (mkFeedbackBody (Some "s2") (Some "nice")) "f9" 700),
       mkResponse 200 (Submissions entries)) /\
    In (mkSnippetWithFeedback (mkCodeSnippet "s2" "console.log(2)" "javascript" "b2" 200)
          (map (populate demo_db)
             (filter (fun f => String.eqb (fb_codeSnippetId f) "s2") (feedbacks demo_db))
           ++ [mkPopulatedFeedback "f9" "s2" (Some ("a1", "alice@example.org")) "nice" 700]))
       entries.
Proof.
  apply (stored_feedback_reaches_owner demo_db alice bob "s2" "nice" "f9" 700
           (mkCodeSnippet "s2" "console.log(2)" "javascript" "b2" 200)
           (mkUser "a1" "alice@example.org" "$2a$12$wonderland" 10)).
  - discriminate.
  - discriminate.
  - reflexivity.
  - reflexivity.
  - simpl. discriminate.
  - simpl. intros g [<- | [<- | [<- | []]]]; discriminate.
  - reflexivity.
Defined.

(** X16.  In every database the server can reach, the answer of
    [GET /api/code/my-submissions] holds only snippets of the requester,
    and every feedback entry in it names its reviewer (id and email), who
    is never the requester. *)
Theorem listing_never_shows_own_review `{Platform} :
  forall (db : Db) (user : AuthUser) (entries : list SnippetWithFeedback),
    reachable db ->
    snd (get_code_my_submissions db user) = mkResponse 200 (Submissions entries) ->
    forall entry, In entry entries ->
      cs_userId (swf_snippet entry) = au_id user /\
      forall pf, In pf (swf_feedbacks entry) ->
        exists rid remail,
          pf_reviewer pf = Some (rid, remail) /\ rid <> au_id user.
Proof.
  intros db user entries Hreach Hresp entry Hentry.
  rewrite get_code_my_submissions_eq in Hresp. cbn [snd] in Hresp.
  injection Hresp as <-.
  destruct (reachable_consistent db Hreach) as (_ & _ & Hself).
  destruct (reachable_sound db Hreach) as (_ & (_ & Hrev) & _).
  unfold submissions_of in Hentry.
  apply in_map_iff in Hentry as [s [<- Hs]].
  apply filter_In in Hs as [Hs_in Hs_own].
  unfold owned_by in Hs_own. apply String.eqb_eq in Hs_own.
  cbn [swf_snippet swf_feedbacks].
  split; [exact Hs_own |].
  intros pf Hpf.
  apply in_map_iff in Hpf as [f [<- Hf]].
  apply filter_In in Hf as [Hf_in Hf_id]. apply String.eqb_eq in Hf_id.
  destruct (populate_reviewer db f (proj1 (Hrev f Hf_in))) as [u [_ Hpop]].
  exists (fb_reviewerId f), (u_email u).
  split; [exact Hpop |].
  intros Heq. apply (Hself f s Hf_in Hs_in); congruence.
Qed.

Lemma listing_never_shows_own_review_witness :
  exists rid remail,
    pf_reviewer (mkPopulatedFeedback "f2" "s1" (Some ("b2", "bob@example.org"))
                   "looks fine" 6000)
    = Some (rid, remail) /\ rid <> au_id alice.
Proof.
  destruct (@listing_never_shows_own_review demo_platform
              (@serve demo_platform empty_db demo_session) alice
              [mkSnippetWithFeedback (mkCodeSnippet "s1" "print(1)" "javascript" "a1" 3000)
                 [mkPopulatedFeedback "f2" "s1" (Some ("b2", "bob@example.org"))
                    "looks fine" 6000]]
              demo_session_reachable eq_refl
              (mkSnippetWithFeedback (mkCodeSnippet "s1" "print(1)" "javascript" "a1" 3000)
                 [mkPopulatedFeedback "f2" "s1" (Some ("b2", "bob@example.org"))
                    "looks fine" 6000])
              (or_introl eq_refl)) as [_ Hrev].
  apply Hrev. simpl. auto.
Defined.

Lemma filter_snoc_out {A : Type} (p : A -> bool) (l : list A) (x : A) :
  p x = false -> filter p (l ++ [x]) = filter p l.
Proof.
  intros Hx. rewrite filter_app. simpl. rewrite Hx. apply app_nil_r.
Qed.

(** X18.  A user's [GET /api/code/my-submissions] answers the same after
    somebody else has posted a snippet, and after anybody has posted
    feedback on a snippet that is not that user's. *)
Theorem listing_unaffected_by_others :
  forall (db : Db) (owner other : AuthUser) (newId : ObjectId) (now : Z),
    (forall b,
       au_id other <> au_id owner ->
       snd (get_code_my_submissions (fst (post_code db other b newId now)) owner)
       = snd (get_code_my_submissions db owner)) /\
    (forall b,
       unique_snippet_ids db ->
       (forall sid s, codeSnippetId b = Some sid ->
                      CodeSnippet_findById db sid = Some s ->
                      cs_userId s <> au_id owner) ->
       snd (get_code_my_submissions (fst (post_feedback db other b newId now)) owner)
       = snd (get_code_my_submissions db owner)).
Proof.
  intros db owner other newId now. split.
  - intros b Hother.
    rewrite !get_code_my_submissions_eq. cbn [snd]. do 2 f_equal.
    destruct (post_code_db db other b newId now) as [-> | (c & _ & _ & _ & ->)];
      [reflexivity |].
    unfold submissions_of. cbn [users snippets feedbacks].
    rewrite filter_snoc_out; [reflexivity |].
    unfold owned_by. cbn [cs_userId]. now apply String.eqb_neq.
  - intros b Huniq Hforeign.
    rewrite !get_code_my_submissions_eq. cbn [snd]. do 2 f_equal.
    unfold post_feedback.
    destruct (codeSnippetId b) as [sid|]; [| reflexivity].
    destruct (feedbackText b) as [text|]; [| reflexivity].
    destruct (_ || _); [reflexivity |].
    destruct (CodeSnippet_findById db sid) as [snippet|] eqn:Efind; [| reflexivity].
    destruct (String.eqb (cs_userId snippet) (au_id other)); [reflexivity |].
    unfold Feedback_create. destruct (existsb _ _); [reflexivity |].
    cbn [fst]. unfold submissions_of. cbn [users snippets feedbacks].
    apply map_ext_in. intros s Hs. f_equal.
    rewrite filter_snoc_out; [reflexivity |].
    cbn [fb_codeSnippetId]. apply String.eqb_neq. intros Heq.
    apply filter_In in Hs as [Hs_in Hs_own].
    unfold owned_by in Hs_own. apply String.eqb_eq in Hs_own.
    apply (Hforeign sid snippet eq_refl Efind).
    apply CodeSnippet_findById_some in Efind as [Hsn_in Hsn_id].
    assert (s = snippet) as <-; [| exact Hs_own].
    apply (NoDup_map_injective cs_id (snippets db)); auto. congruence.
Qed.

Lemma listing_unaffected_by_others_witness :
  snd (get_code_my_submissions
         (fst (post_code demo_db bob (mkCodeBody (Some "x = 1") None) "s4" 700)) alice)
  = snd (get_code_my_submissions demo_db alice)
  /\
  snd (get_code_my_submissions
         (fst (post_feedback demo_db alice (mkFeedbackBody (Some "s2") (Some "nice")) "f9" 700))
         alice)
  = snd (get_code_my_submissions demo_db alice).
Proof.
  destruct (listing_unaffected_by_others demo_db alice bob "s4" 700) as [Hcode _].
  destruct (listing_unaffected_by_others demo_db alice alice "f9" 700) as [_ Hfeedback].
  split.
  - apply Hcode. simpl. discriminate.
  - apply Hfeedback.
    + unfold unique_snippet_ids. simpl. repeat constructor; simpl; intuition discriminate.
    + intros sid s [= <-] [= <-]. simpl. discriminate.
Defined.

(** ** The router's listing after a save *)

Lemma sort_createdAt_desc_latest (l : list Code) (c : Code) :
  (forall x, In x l -> c_createdAt x < c_createdAt c) ->
  sort_createdAt_desc (l ++ [c]) = c :: sort_createdAt_desc l.
Proof.
  induction l as [|x l IH]; intros Hlate; [reflexivity |].
  cbn [app sort_createdAt_desc].
  rewrite IH by (intros y Hy; apply Hlate; now right).
  cbn [insert_createdAt_desc].
  assert (c_createdAt x < c_createdAt c) as Hx by (apply Hlate; now left).
  apply Z.ltb_lt in Hx. now rewrite Hx.
Qed.

(** X17.  A [Code] document saved by [router.post('/')] with a creation
    date later than those of the user's other documents comes first in the
    user's [GET /mine], followed by the listing from before. *)
Theorem saved_code_heads_mine :
  forall (db : Db) (user_id : ObjectId) (code : field) (newId : ObjectId) (now : Z)
         (mine : list Code),
    (forall d, In d (codes db) -> c_id d <> newId) ->
    (forall d, In d (codes db) -> c_user d = user_id -> c_createdAt d < now) ->
    snd (router_get_mine db user_id) = mkResponse 200 (Codes mine) ->
    let db' := fst (router_post db user_id code newId now) in
    router_post db user_id code newId now
    = (db', mkResponse 201 (Message "Code submitted")) /\
    router_get_mine db' user_id
    = (db', mkResponse 200 (Codes (mkCode newId user_id code now [] :: mine))).
Proof.
  intros db user_id code0 newId now mine Hfresh Hlate Hmine db'.
  assert (Hsave : router_post db user_id code0 newId now
                  = (mkDb (users db) (snippets db) (feedbacks db)
                       (codes db ++ [mkCode newId user_id code0 now []]),
                     mkResponse 201 (Message "Code submitted"))).
  { unfold router_post, Code_save. cbn [c_id].
    destruct (existsb _ _) eqn:Ex; [exfalso | reflexivity].
    apply existsb_exists in Ex as [d [Hd Heq]].
    apply String.eqb_eq in Heq. exact (Hfresh d Hd Heq). }
  unfold db'. rewrite Hsave. cbn [fst].
  split; [reflexivity |].
  unfold router_get_mine in *. cbn [snd codes] in *.
  injection Hmine as <-.
  do 3 f_equal.
  rewrite filter_app. cbn [filter c_user]. rewrite String.eqb_refl.
  apply sort_createdAt_desc_latest.
  intros x Hx. apply filter_In in Hx as [Hx_in Hx_user].
  apply String.eqb_eq in Hx_user. cbn [c_createdAt]. now apply Hlate.
Qed.

Lemma saved_code_heads_mine_witness :
  router_get_mine (fst (router_post demo_db "a1" (Some "print(4)") "k4" 400)) "a1"
  = (fst (router_post demo_db "a1" (Some "print(4)") "k4" 400),
     mkResponse 200
       (Codes (mkCode "k4" "a1" (Some "print(4)") 400 []
               :: [ mkCode "k2" "a1" (Some "print(2)") 200 [];
                    mkCode "k1" "a1" (Some "print(1)") 100 [] ]))).
Proof.
  apply (saved_code_heads_mine demo_db "a1" (Some "print(4)") "k4" 400
           [ mkCode "k2" "a1" (Some "print(2)") 200 [];
             mkCode "k1" "a1" (Some "print(1)") 100 [] ]).
  - simpl. intros d [<- | [<- | [<- | []]]]; discriminate.
  - simpl. intros d [<- | [<- | [<- | []]]] Hu; simpl; try lia; discriminate.
  - reflexivity.
Defined.

(** ** The feedback route on requests as they arrive *)

(** Whoever the middleware with the cast admits, [authenticate] admits
    on the token that carries the ObjectId itself. *)
Lemma authenticate_raw_inr `{Platform} (db : Db) (h : AuthHeader) (now : Z) (user : AuthUser) :
  authenticate_raw db h now = inr user ->
  exists h', authenticate db h' now = inr user.
Proof.
  unfold authenticate_raw, jwt_verify.
  destruct h as [| | [|t]]; try discriminate.
  destruct (String.eqb (tk_signature t) (hmac JWT_SECRET (tk_payload t))); [| discriminate].
  destruct (jp_exp (tk_payload t) <=? seconds now) eqn:Eexp; [discriminate |].
  destruct (ObjectId_cast (jp_id (tk_payload t))) as [id|]; [| discriminate].
  destruct (User_findById db id) as [u|] eqn:Eu; [| discriminate].
  intros [= <-].
  set (payload := mkJwtPayload id (jp_iat (tk_payload t)) (jp_exp (tk_payload t))).
  exists (Bearer (Jwt (mkToken payload (hmac JWT_SECRET payload)))).
  unfold authenticate, jwt_verify. cbn [tk_signature tk_payload].
  rewrite String.eqb_refl. unfold payload. cbn [jp_exp jp_id].
  rewrite Eexp. cbn [jp_id]. now rewrite Eu.
Qed.

(** X19.  A request to [POST /api/feedback] as it arrives, with the casts
    of Mongoose and the [catch] blocks they reach, leaves the database
    among those the server can reach: what is proved of every reachable
    database holds after it too, in particular that no stored feedback is
    by the owner of its snippet. *)
Theorem feedback_route_stays_reachable `{Platform} :
  forall (db : Db) (h : AuthHeader) (b : FeedbackBody) (newId : ObjectId) (now : Z),
    reachable db ->
    reachable (fst (post_feedback_route db h b newId now)) /\
    no_self_review (fst (post_feedback_route db h b newId now)).
Proof.
  intros db h b newId now Hreach.
  assert (Hnext : reachable (fst (post_feedback_route db h b newId now))).
  { unfold post_feedback_route.
    destruct (authenticate_raw db h now) as [r | user] eqn:Ea; [exact Hreach |].
    destruct (authenticate_raw_inr db h now user Ea) as [h' Hh'].
    assert (Hstep : forall body,
               reachable (fst (post_feedback db user body newId now))).
    { intros body.
      pose proof (reach_step db (PostFeedback h' body newId) now Hreach) as Hs.
      cbn [handle] in Hs. unfold protected in Hs. now rewrite Hh' in Hs. }
    unfold post_feedback_raw.
    destruct (codeSnippetId b) as [sid|] eqn:Es; [| exact Hreach].
    destruct (feedbackText b) as [text|] eqn:Et; [| exact Hreach].
    destruct (falsy (Some sid)) eqn:Efs; [exact Hreach |].
    destruct (falsy (Some text)) eqn:Eft; [exact Hreach |]. cbn [orb].
    destruct (ObjectId_cast sid) as [id|] eqn:Ec; [| exact Hreach].
    specialize (Hstep (mkFeedbackBody (Some id) (Some text))).
    pose proof (ObjectId_cast_nonempty sid id Ec) as Hid.
    apply String.eqb_neq in Hid.
    unfold post_feedback in Hstep. cbn [codeSnippetId feedbackText falsy] in Hstep.
    simpl in Eft. rewrite Hid, Eft in Hstep. exact Hstep. }
  split; [exact Hnext |].
  exact (proj2 (proj2 (reachable_consistent _ Hnext))).
Qed.

Lemma feedback_route_stays_reachable_witness :
  no_self_review
    (fst (@post_feedback_route demo_platform (@serve demo_platform empty_db demo_session)
            (Bearer (Jwt alice_token)) (mkFeedbackBody (Some "zz") (Some "nice"))
            "f9" 8000)).
Proof.
  apply (@feedback_route_stays_reachable demo_platform).
  exact demo_session_reachable.
Defined.

(** ** Login with a string password *)

(** X20.  With a password that is a string, a wrong password for a
    registered email and any password for an unregistered email get the
    very same answer from [POST /api/auth/login]: 401 ['Invalid
    credentials'] when email and password are non-empty. *)
Theorem login_string_password_no_leak `{Platform} :
  forall (db1 db2 : Db) (e p : string) (user : User) (now : Z),
    User_findOne_email db1 e = Some user ->
    bcrypt_compare p (u_password user) = false ->
    (forall u, In u (users db2) -> u_email u <> e) ->
    let login1 :=
      post_auth_login_raw db1 (mkJsonCredentials (Some e) (Some (JsString p))) now in
    let login2 :=
      post_auth_login_raw db2 (mkJsonCredentials (Some e) (Some (JsString p))) now in
    (e <> "" -> p <> "" ->
     snd login1 = mkResponse 401 (Message "Invalid credentials") /\
     error_kind (snd login1) = Some Unauthorized) /\
    snd login1 = snd login2.
Proof.
  intros db1 db2 e p user now Hfound Hwrong Hmissing login1 login2.
  pose proof (post_auth_login_raw_string db1 (mkCredentials (Some e) (Some p)) now) as E1.
  pose proof (post_auth_login_raw_string db2 (mkCredentials (Some e) (Some p)) now) as E2.
  cbn [email password option_map] in E1, E2.
  unfold login1, login2. rewrite E1, E2.
  destruct (login_wrong_password_same_as_unknown_email db1 db2 e p user now
              Hfound Hwrong Hmissing) as (H401 & Hsame & _).
  split; [exact H401 | exact Hsame].
Qed.

Lemma login_string_password_no_leak_witness :
  snd (@post_auth_login_raw demo_platform demo_db
         (mkJsonCredentials (Some "alice@example.org") (Some (JsString "guess"))) 900)
  = mkResponse 401 (Message "Invalid credentials")
  /\
  snd (@post_auth_login_raw demo_platform demo_db
         (mkJsonCredentials (Some "alice@example.org") (Some (JsString "guess"))) 900)
  = snd (@post_auth_login_raw demo_platform empty_db
           (mkJsonCredentials (Some "alice@example.org") (Some (JsString "guess"))) 900).
Proof.
  pose proof (@login_string_password_no_leak demo_platform
                demo_db empty_db "alice@example.org" "guess"
                (mkUser "a1" "alice@example.org" "$2a$12$wonderland" 10) 900) as Hw.
  cbv zeta in Hw.
  destruct Hw as [H401 Hsame]; [reflexivity | reflexivity | intros u [] |].
  split; [apply H401; discriminate | exact Hsame].
Defined.
